(** * Verification of the packaging script [setup.py]

    The script resolves the package version (from the saved version file
    or from Git), extracts the long description from the README and hooks
    the [build_ext] and [sdist] commands.  This development embeds the
    script's functions and states the properties of the specification
    about them.

    Conventions of the embedding.
    - A Python [str] is a [string]; its characters are the code points
      below 256.  Text read from a file is the text Python 3 hands to the
      program, that is after universal-newline translation, which
      [universal_newlines] performs.
    - A Python exception is a value of [exn]; a computation that may raise
      returns a [result].
    - The file system and the [git] executable are the environment: the
      file system is a finite map from paths to inodes and from inodes to
      contents (so that hard links are visible), [git] is an oracle from
      command lines to process outcomes, and the commands the script
      spawns are recorded in a log, in order. *)

From Stdlib Require Import ZArith Ascii String List Lia DecimalString DecimalNat.
From stdpp Require Import base option list gmap strings fin_maps.

Local Open Scope string_scope.
Local Open Scope list_scope.

(** ** Exceptions *)

Inductive errno : Type := ENOENT | EACCES | EPERM | EISDIR.

Inductive exn : Type :=
| OSError (e : errno)
| RuntimeError (msg : string)
| IndexError
| ValueError.

Inductive result (A : Type) : Type :=
| Ok (a : A)
| Raise (e : exn).
Arguments Ok {A} a.
Arguments Raise {A} e.

(** The outcome of a call into the operating system: such a call fails
    with an [OSError] only. *)
Inductive os_result (A : Type) : Type :=
| OsOk (a : A)
| OsError (e : errno).
Arguments OsOk {A} a.
Arguments OsError {A} e.

Definition of_os {A} (r : os_result A) : result A :=
  match r with
  | OsOk a => Ok a
  | OsError e => Raise (OSError e)
  end.

Definition is_OSError (e : exn) : bool :=
  match e with OSError _ => true | _ => false end.

(** ** Python string operations *)

Module Py.

Definition LF : ascii := "010"%char.
Definition CR : ascii := "013"%char.

(** [str.isspace] on the code points below 256: TAB, LF, VT, FF, CR,
    the separators 0x1c-0x1f, SPACE, NEL (0x85) and NBSP (0xa0). *)
Definition isspace (c : ascii) : bool :=
  let n := nat_of_ascii c in
  (((9 <=? n) && (n <=? 13)) || ((28 <=? n) && (n <=? 32))
   || (n =? 133) || (n =? 160))%nat.

Definition is_char (a c : ascii) : bool := Ascii.eqb a c.

(** [s.lstrip(chars)], [s.rstrip(chars)], [s.strip(chars)] with the
    character set given as a predicate. *)
Fixpoint lstrip (p : ascii -> bool) (s : string) : string :=
  match s with
  | "" => ""
  | String c s' => if p c then lstrip p s' else s
  end.

Fixpoint rstrip (p : ascii -> bool) (s : string) : string :=
  match s with
  | "" => ""
  | String c s' =>
      match rstrip p s' with
      | "" => if p c then "" else String c ""
      | r => String c r
      end
  end.

Definition strip (p : ascii -> bool) (s : string) : string :=
  rstrip p (lstrip p s).

Definition startswith (s : string) (c : ascii) : bool :=
  match s with
  | String c' _ => Ascii.eqb c' c
  | "" => false
  end.

Fixpoint endswith (s : string) (c : ascii) : bool :=
  match s with
  | "" => false
  | String c' "" => Ascii.eqb c' c
  | String _ s' => endswith s' c
  end.

(** [sep.join(parts)]. *)
Fixpoint join (sep : string) (parts : list string) : string :=
  match parts with
  | [] => ""
  | [p] => p
  | p :: ps => p +:+ sep +:+ join sep ps
  end.

(** ["".join(parts)]. *)
Definition concat (parts : list string) : string :=
  fold_right String.append "" parts.

(** The last occurrence of [sep] splits [s] in two. *)
Fixpoint rsplit_once (sep : ascii) (s : string) : option (string * string) :=
  match s with
  | "" => None
  | String c s' =>
      match rsplit_once sep s' with
      | Some (a, b) => Some (String c a, b)
      | None => if Ascii.eqb c sep then Some ("", s') else None
      end
  end.

(** [s.rsplit(sep, maxsplit)]. *)
Fixpoint rsplit (sep : ascii) (maxsplit : nat) (s : string) : list string :=
  match maxsplit with
  | O => [s]
  | S n =>
      match rsplit_once sep s with
      | None => [s]
      | Some (a, b) => rsplit sep n a ++ [b]
      end
  end.

(** Universal newlines on reading: CR LF and a lone CR become LF. *)
Fixpoint translate (after_cr : bool) (s : string) : string :=
  match s with
  | "" => ""
  | String c s' =>
      if Ascii.eqb c CR then String LF (translate true s')
      else if Ascii.eqb c LF then
             if after_cr then translate false s'
             else String LF (translate false s')
      else String c (translate false s')
  end.

Definition universal_newlines (raw : string) : string := translate false raw.

(** [for line in f]: the lines of a text, each with its terminating LF
    (the last one has none when the text does not end with LF). *)
Fixpoint lines (s : string) : list string :=
  match s with
  | "" => []
  | String c s' =>
      if Ascii.eqb c LF then String c "" :: lines s'
      else match lines s' with
           | [] => [String c ""]
           | l :: ls => String c l :: ls
           end
  end.

End Py.

Definition nl : string := String Py.LF "".

(** ** The file system

    Paths name inodes and inodes hold contents, so two paths may share
    one inode (a hard link, the case the script's [sdist] hook guards
    against).  [no_unlink] and [no_write] are the paths on which the
    operating system denies removal, respectively opening for writing. *)

Record filesys : Type := {
  names : gmap string nat;
  inodes : gmap nat string;
  no_unlink : gset string;
  no_write : gset string
}.

Definition content (fs : filesys) (path : string) : option string :=
  i ← names fs !! path; Some (default "" (inodes fs !! i)).

(** [open(path, 'r')] followed by reading the text. *)
Definition open_read (fs : filesys) (path : string) : os_result string :=
  match content fs path with
  | None => OsError ENOENT
  | Some raw => OsOk (Py.universal_newlines raw)
  end.

(** [os.remove(path)]: the name goes, the inode stays for its other
    names. *)
Definition os_remove (fs : filesys) (path : string) : os_result filesys :=
  match names fs !! path with
  | None => OsError ENOENT
  | Some _ =>
      if decide (path ∈ no_unlink fs) then OsError EACCES
      else OsOk {| names := delete path (names fs); inodes := inodes fs;
                   no_unlink := no_unlink fs; no_write := no_write fs |}
  end.

(** [with open(path, 'w') as f: f.write(data)]: an existing file is
    rewritten in place, through its inode; otherwise a new inode is
    made. *)
Definition open_write (fs : filesys) (path data : string) : os_result filesys :=
  if decide (path ∈ no_write fs) then OsError EACCES
  else match names fs !! path with
       | Some i =>
           OsOk {| names := names fs; inodes := <[i := data]> (inodes fs);
                   no_unlink := no_unlink fs; no_write := no_write fs |}
       | None =>
           let i := fresh (dom (inodes fs)) in
           OsOk {| names := <[path := i]> (names fs);
                   inodes := <[i := data]> (inodes fs);
                   no_unlink := no_unlink fs; no_write := no_write fs |}
       end.

(** [os.path.join(a, b)] on POSIX. *)
Definition path_join (a b : string) : string :=
  if Py.startswith b "/" then b
  else if String.eqb a "" || Py.endswith a "/" then a +:+ b
  else a +:+ "/" +:+ b.

(** ** Constants of the script *)

Definition README_FILE : string := "README".
Definition SAVED_VERSION_FILE : string := "version".
Definition use_git : string := "__use_git__".

(** ** Reading the saved version (module level, lines 93-102) *)

Definition no_version : exn :=
  RuntimeError "Saved version file does not contain version.".

(** The [for line in f: ... else: raise] loop. *)
Fixpoint first_version (ls : list string) : result string :=
  match ls with
  | [] => Raise no_version
  | line :: rest =>
      let line := Py.strip Py.isspace line in
      if Py.startswith line "#" then first_version rest
      else Ok line
  end.

Definition read_saved_version (fs : filesys) : result string :=
  match open_read fs SAVED_VERSION_FILE with
  | OsError e => Raise (OSError e)
  | OsOk text => first_version (Py.lines text)
  end.

(** ** [long_description] (lines 110-128) *)

(** The loop over the lines of the README, with the loop's variables
    [skip] and [text]; [text[-1]] on an empty list raises. *)
Fixpoint scan_readme (ls : list string) (skip : bool) (text : list string)
  : result (list string) :=
  match ls with
  | [] => Ok text
  | line :: rest =>
      if String.eqb line nl then
        if skip then scan_readme rest false text
        else match last text with
             | None => Raise IndexError
             | Some t =>
                 if String.eqb t nl then Ok (removelast text)
                 else scan_readme rest skip (text ++ [line])
             end
      else if skip then scan_readme rest skip text
           else scan_readme rest skip (text ++ [line])
  end.

Definition long_description (fs : filesys) : result string :=
  let text :=
    match open_read fs README_FILE with
    | OsError _ => None
    | OsOk s =>
        match scan_readme (Py.lines s) true [] with
        | Raise _ => None
        | Ok text => Some text
        end
    end in
  match text with
  | None => Ok ""
  | Some text =>
      match last text with
      | None => Raise IndexError
      | Some t => Ok (Py.concat (removelast text ++ [Py.rstrip Py.isspace t]))
      end
  end.

(** ** The [sdist] hook (lines 140-153) *)

Definition generated_comment : string :=
  "# This file has been generated by setup.py." +:+ nl.

Definition marker_text (version : string) : string :=
  generated_comment +:+ version +:+ nl.

(** [fs] is the file system as [sdist.make_release_tree] leaves it. *)
Definition make_release_tree (version base_dir : string) (fs : filesys)
  : result filesys :=
  let fname := path_join base_dir SAVED_VERSION_FILE in
  let fs1 :=
    match os_remove fs fname with
    | OsOk fs' => fs'
    | OsError _ => fs
    end in
  of_os (open_write fs1 fname (marker_text version)).

(** A file system holding the given files, one inode each. *)
Definition mkfs (files : list (string * string)) : filesys :=
  {| names := list_to_map (imap (fun i f => (fst f, i)) files);
     inodes := list_to_map (imap (fun i f => (i, snd f)) files);
     no_unlink := ∅; no_write := ∅ |}.

(** ** Git

    A spawned process that has run to its end: what [p.wait()] and
    [p.communicate()[0].decode()] give. *)

Record process : Type := { returncode : Z; stdout : string }.

(** The environment of [get_version_from_git]: the directory of the
    script, the outcome of spawning each command line ([OsError] when the
    executable cannot be run) and [os.path.samefile]. *)
Record world : Type := {
  distr_root : string;
  spawn : list string -> os_result process;
  samefile : string -> string -> os_result bool
}.

(** Computations that spawn processes: the log of the command lines
    spawned so far is threaded through, and an exception ends the
    computation. *)
Definition Run (A : Type) : Type :=
  list (list string) -> result A * list (list string).

Definition ret {A} (a : A) : Run A := fun log => (Ok a, log).

Definition raise {A} (e : exn) : Run A := fun log => (Raise e, log).

Definition bind {A B} (m : Run A) (k : A -> Run B) : Run B :=
  fun log =>
    match m log with
    | (Ok a, log') => k a log'
    | (Raise e, log') => (Raise e, log')
    end.

Notation "'let*' x ':=' m 'in' k" := (bind m (fun x => k))
  (at level 10, x name, m at level 100, k at level 200).

Definition lift {A} (r : result A) : Run A := fun log => (r, log).

(** [try: p = subprocess.Popen(argv, ...) except OSError: ...]: [None]
    stands for the handler being entered. *)
Definition try_Popen (w : world) (argv : list string) : Run (option process) :=
  fun log =>
    (match spawn w argv with
     | OsOk p => Ok (Some p)
     | OsError _ => Ok None
     end, log ++ [argv]).

Definition git_toplevel : list string := ["git"; "rev-parse"; "--show-toplevel"].
Definition git_describe (opts : list string) : list string :=
  ["git"; "describe"; "--long"] ++ opts.
Definition git_diff : list string := ["git"; "diff"; "--quiet"].
Definition first_parent : list string := ["--first-parent"].

(** The [for opts in ...: ... else: return] loop (lines 58-68): [None]
    when the function returns from inside the loop or from its [else],
    the process left in [p] by [break] otherwise. *)
Fixpoint describe_loop (w : world) (optss : list (list string))
  : Run (option process) :=
  match optss with
  | [] => ret None
  | opts :: rest =>
      let* r := try_Popen w (git_describe opts) in
      match r with
      | None => ret None
      | Some p =>
          if (returncode p =? 0)%Z then ret (Some p)
          else describe_loop w rest
      end
  end.

(** Lines 78-84: the labels after the dirty check. *)
Definition dirty_check (w : world) (labels : list string) : Run (list string) :=
  let* r := try_Popen w git_diff in
  match r with
  | None => ret (labels ++ ["confused"])
  | Some p =>
      if (returncode p =? 1)%Z then ret (labels ++ ["dirty"])
      else ret labels
  end.

(** Line 69: [out.strip('v').rstrip('\n')]. *)
Definition description_of (out : string) : string :=
  Py.rstrip (Py.is_char Py.LF) (Py.strip (Py.is_char "v") out).

(** Lines 69-90: from the output of [git describe] to the version. *)
Definition version_of_description (w : world) (out : string) : Run (option string) :=
  let description := description_of out in
  match Py.rsplit "-" 2 description with
  | [release; dev; git] =>
      let version := [release] in
      let labels := [] in
      let '(version, labels) :=
        if negb (String.eqb dev "0")
        then (version ++ [".dev" +:+ dev], labels ++ [git])
        else (version, labels) in
      let* labels := dirty_check w labels in
      let version :=
        match labels with
        | [] => version
        | _ => version ++ ["+"] ++ [Py.join "." labels]
        end in
      ret (Some (Py.concat version))
  | _ => raise ValueError
  end.

(** [None] is Python's [None], returned by the bare [return]s. *)
Definition get_version_from_git (w : world) : Run (option string) :=
  let* r := try_Popen w git_toplevel in
  match r with
  | None => ret None
  | Some p =>
      if negb (returncode p =? 0)%Z then ret None
      else
        let* same := lift (of_os (samefile w (Py.rstrip (Py.is_char Py.LF) (stdout p))
                                      (distr_root w))) in
        if negb same then ret None
        else
          let* r := describe_loop w [first_parent; []] in
          match r with
          | None => ret None
          | Some p => version_of_description w (stdout p)
          end
  end.

(** Lines 93-107: the module-level resolution of [version]; [not version]
    holds of [None] and of the empty string. *)
Definition resolve_version (fs : filesys) (w : world) : Run string :=
  let* version := lift (read_saved_version fs) in
  if String.eqb version use_git then
    let* version := get_version_from_git w in
    match version with
    | None | Some "" => ret "unknown"
    | Some version => ret version
    end
  else ret version.

Definition run {A} (m : Run A) : result A * list (list string) := m [].

(** A repository at [root]: the tool is there, the top level is [root],
    [describe] answers [described] in both modes and [diff --quiet] exits
    with [diff_code]. *)
Definition repo (root described : string) (diff_code : Z) : world :=
  {| distr_root := root;
     spawn := fun argv =>
       if decide (argv = git_toplevel)
       then OsOk {| returncode := 0; stdout := root +:+ nl |}
       else if decide (argv = git_diff)
       then OsOk {| returncode := diff_code; stdout := "" |}
       else OsOk {| returncode := 0; stdout := described +:+ nl |};
     samefile := fun a b => OsOk (bool_decide (a = b)) |}.

Definition dynamic_fs : filesys := mkfs [("version", "__use_git__" +:+ nl)].

(** ** Vocabulary of the specification

    Situations of the environment that the statements below speak of. *)

(** The top-level query runs, exits with 0 and names the directory of
    the script. *)
Definition toplevel_passes (w : world) : Prop :=
  exists p, spawn w git_toplevel = OsOk p /\ returncode p = 0%Z
            /\ samefile w (Py.rstrip (Py.is_char Py.LF) (stdout p)) (distr_root w)
               = OsOk true.

(** The tool cannot be run, or the top-level query exits with another
    code than 0, or [os.path.samefile] answers that the directory it
    names is not the directory of the script.  A failure of
    [os.path.samefile] itself is none of these. *)
Definition toplevel_fails (w : world) : Prop :=
  (exists e, spawn w git_toplevel = OsError e)
  \/ (exists p, spawn w git_toplevel = OsOk p /\ returncode p <> 0%Z)
  \/ (exists p, spawn w git_toplevel = OsOk p
                 /\ samefile w (Py.rstrip (Py.is_char Py.LF) (stdout p)) (distr_root w)
                    = OsOk false).

(** A describe invocation that runs and exits with 0, respectively with
    another code. *)
Definition describe_exits_zero (w : world) (opts : list string) (p : process) : Prop :=
  spawn w (git_describe opts) = OsOk p /\ returncode p = 0%Z.

Definition describe_exits_nonzero (w : world) (opts : list string) : Prop :=
  exists p, spawn w (git_describe opts) = OsOk p /\ returncode p <> 0%Z.

(** The describe query succeeds with the process [p]: at once in
    first-parent mode, or in the retry. *)
Definition describe_succeeds (w : world) (p : process) : Prop :=
  describe_exits_zero w first_parent p
  \/ (describe_exits_nonzero w first_parent /\ describe_exits_zero w [] p).

(** The decimal numeral of a distance, as [git describe] prints it. *)
Definition decimal (n : nat) : string :=
  NilEmpty.string_of_uint (Nat.to_uint n).

(** The exit code of the dirty check, [None] when it cannot be run. *)
Definition diff_exit (w : world) : option Z :=
  match spawn w git_diff with
  | OsOk p => Some (returncode p)
  | OsError _ => None
  end.

(** A repository in which tags reach the commit only through a merged
    branch: the first-parent describe exits with 128, the plain one
    answers. *)
Definition merged_tag_repo : world :=
  {| distr_root := "/src/pkg";
     spawn := fun argv =>
       if decide (argv = git_toplevel)
       then OsOk {| returncode := 0; stdout := "/src/pkg" +:+ nl |}
       else if decide (argv = git_describe first_parent)
       then OsOk {| returncode := 128; stdout := "" |}
       else if decide (argv = git_describe [])
       then OsOk {| returncode := 0; stdout := "v2.0-1-g5e6f7a8" +:+ nl |}
       else OsOk {| returncode := 0; stdout := "" |};
     samefile := fun a b => OsOk (bool_decide (a = b)) |}.

(** A checkout nested in another repository: the top level is elsewhere. *)
Definition nested_checkout : world :=
  {| distr_root := "/src/outer/pkg";
     spawn := fun argv =>
       if decide (argv = git_toplevel)
       then OsOk {| returncode := 0; stdout := "/src/outer" +:+ nl |}
       else OsOk {| returncode := 0; stdout := "v1.0-0-g1a2b3c4" +:+ nl |};
     samefile := fun a b => OsOk (bool_decide (a = b)) |}.


(** A stripped line that the marker loop passes over. *)
Definition is_comment (stripped : string) : bool := Py.startswith stripped "#".

(** The marker loop as the specification words it: comment lines and
    blank lines are passed over, the first other line is the value. *)
Fixpoint spec_first_version (ls : list string) : result string :=
  match ls with
  | [] => Raise no_version
  | line :: rest =>
      let line := Py.strip Py.isspace line in
      if is_comment line || String.eqb line "" then spec_first_version rest
      else Ok line
  end.

Definition spec_read_saved_version (fs : filesys) : result string :=
  match open_read fs SAVED_VERSION_FILE with
  | OsError e => Raise (OSError e)
  | OsOk text => spec_first_version (Py.lines text)
  end.

(** Lines that begin with a line other than the blank one and in which
    no blank line follows a blank line; [prev_blank] tells whether the
    line before the first one counts as blank. *)
Fixpoint no_blank_pair (prev_blank : bool) (ls : list string) : bool :=
  match ls with
  | [] => true
  | l :: rest =>
      if String.eqb l nl then negb prev_blank && no_blank_pair true rest
      else no_blank_pair false rest
  end.

(** The README of the specification's example, and three more. *)
Definition spec_readme : string :=
  nl +:+ nl +:+ "Title" +:+ nl +:+ "Summary" +:+ nl +:+ nl +:+ "More text" +:+ nl.

Definition titled_readme : string :=
  "Title" +:+ nl +:+ "=====" +:+ nl +:+ nl +:+ "Summary" +:+ nl +:+ nl
  +:+ "More text  " +:+ nl +:+ nl +:+ nl +:+ "Rest" +:+ nl.

(** Whether the last kept line is blank, or there is none. *)
Definition prev_blank (text : list string) : bool :=
  match last text with
  | None => true
  | Some t => String.eqb t nl
  end.

(** A computation only extends the log it is given, and its result does
    not depend on that log. *)
Definition logging {A} (m : Run A) : Prop :=
  forall log, m log = (fst (m []), log ++ snd (m [])).

(** The marker path of a snapshot. *)
Definition marker_path (base_dir : string) : string :=
  path_join base_dir SAVED_VERSION_FILE.

(** A snapshot whose marker is a hard link to the marker of the source
    tree, in a directory that does not allow removal. *)
Definition linked_snapshot : filesys :=
  {| names := {[ "version" := 0; "pkg-1.0/version" := 0 ]};
     inodes := {[ 0 := "__use_git__" +:+ nl ]};
     no_unlink := {[ "pkg-1.0/version" ]};
     no_write := ∅ |}.

(** The same snapshot in a directory that allows removal. *)
Definition linked_snapshot_free : filesys :=
  {| names := {[ "version" := 0; "pkg-1.0/version" := 0 ]};
     inodes := {[ 0 := "__use_git__" +:+ nl ]};
     no_unlink := ∅;
     no_write := ∅ |}.

(** Whether a character occurs in a string. *)
Fixpoint occurs (c : ascii) (s : string) : bool :=
  match s with
  | "" => false
  | String c' s' => Ascii.eqb c' c || occurs c s'
  end.

(** No line break, Python-wise: neither LF nor CR. *)
Definition one_line (s : string) : bool :=
  negb (occurs Py.LF s) && negb (occurs Py.CR s).

(** A repository whose nearest tag is named like the sentinel. *)
Definition sentinel_tag_repo : world :=
  repo "/src/pkg" "__use_git__-0-g1a2b3c4" 0.

(** A repository whose nearest tag begins with a no-break space. *)
Definition nbsp : string := String "160"%char "".
Definition nbsp_tag_repo : world :=
  repo "/src/pkg" (nbsp +:+ "1.0-0-g1a2b3c4") 0.

(** What an observation [k] shows of the outcome of a computation that
    ended without an error. *)
Definition after {A B} (r : result A) (k : A -> B) : option B :=
  match r with
  | Ok a => Some (k a)
  | Raise _ => None
  end.

(** ** The [build_ext] hook (lines 131-137) *)

Definition VERSION_HEADER : list string := ["src"; "version.hh"].

(** [os.path.join] of the components of a path, in order. *)
Definition path_join_all (parts : list string) : string :=
  match parts with
  | [] => ""
  | p :: ps => fold_left path_join ps p
  end.

Definition dquote : string := String (ascii_of_nat 34) "".

Definition define_line (version : string) : string :=
  "#define VERSION " +:+ dquote +:+ version +:+ dquote +:+ nl.

Definition header_text (version : string) : string :=
  ("// This file has been generated by setup.py." +:+ nl)
  +:+ ("// It is not included in source distributions." +:+ nl)
  +:+ define_line version.

(** The header is written in place; [build_ext.run(self)], which follows,
    is the command of setuptools and is not part of the script. *)
Definition our_build_ext_run (version : string) (fs : filesys) : result filesys :=
  of_os (open_write fs (path_join_all VERSION_HEADER) (header_text version)).

(** ** More vocabulary *)

(** The number of occurrences of a character. *)
Fixpoint count_char (c : ascii) (s : string) : nat :=
  match s with
  | "" => 0
  | String c' s' => (if Ascii.eqb c' c then 1 else 0) + count_char c s'
  end.

(** Every name of the file system has its inode. *)
Definition well_formed (fs : filesys) : Prop :=
  forall path i, names fs !! path = Some i -> is_Some (inodes fs !! i).

(** The output of [git describe --long] for a tag [v<R>]. *)
Definition describe_output (R dev C : string) : string :=
  "v" +:+ R +:+ "-" +:+ dev +:+ "-" +:+ C +:+ nl.

(** A repository whose tag has dashes of its own. *)
Definition dashed_tag_repo : world :=
  repo "/src/pkg" "v1.0-rc1-3-g1a2b3c4" 0.

(** A repository whose describe output is a bare commit id, as
    [git describe --always] would print. *)
Definition bare_id_repo : world := repo "/src/pkg" "1a2b3c4" 0.

(** The value of the marker as the loop of lines 94-100 finds it: [X] is
    the first line of the saved version file that, stripped, does not
    begin with [#]; the lines before it are comments, and a blank line
    is not one. *)
Definition marker_value_is (fs : filesys) (X : string) : Prop :=
  exists raw pre post,
    content fs SAVED_VERSION_FILE = Some raw
    /\ map (Py.strip Py.isspace) (Py.lines (Py.universal_newlines raw))
       = pre ++ X :: post
    /\ Forall (fun l => is_comment l = true) pre
    /\ is_comment X = false.

(** A repository whose nearest tag is named [v]: the release is empty. *)
Definition empty_release_repo : world := repo "/src/pkg" "v-0-g1a2b3c4" 0.

(** A repository whose top-level query names a directory that cannot be
    examined: [os.path.samefile] fails on it. *)
Definition unreadable_toplevel : world :=
  {| distr_root := "/src/pkg";
     spawn := fun argv =>
       if decide (argv = git_toplevel)
       then OsOk {| returncode := 0; stdout := "/src/gone" +:+ nl |}
       else OsOk {| returncode := 0; stdout := "v1.0-0-g1a2b3c4" +:+ nl |};
     samefile := fun a b => OsError ENOENT |}.

(** A machine without [git]. *)
Definition no_git : world :=
  {| distr_root := "/src/pkg";
     spawn := fun argv => OsError ENOENT;
     samefile := fun a b => OsOk (bool_decide (a = b)) |}.

(** Saved version files with a blank line before the significant line. *)
Definition blank_before_sentinel : filesys :=
  mkfs [("version", nl +:+ "__use_git__" +:+ nl)].

Definition blank_before_literal : filesys :=
  mkfs [("version", "# pinned" +:+ nl +:+ nl +:+ "1.2.0" +:+ nl)].

(** * Properties *)

(** ** The embedding on concrete inputs *)

Example strip_v_example :
  Py.rstrip (Py.is_char Py.LF) (Py.strip (Py.is_char "v") ("v1.0-3-gabc" +:+ nl))
  = "1.0-3-gabc".
Proof. reflexivity. Qed.

Example rsplit_example :
  Py.rsplit "-" 2 "1.0-rc1-3-gabc" = ["1.0-rc1"; "3"; "gabc"].
Proof. reflexivity. Qed.

Example rsplit_short : Py.rsplit "-" 2 "1.0-gabc" = ["1.0"; "gabc"].
Proof. reflexivity. Qed.

Example lines_example :
  Py.lines ("a" +:+ nl +:+ nl +:+ "b") = ["a" +:+ nl; nl; "b"].
Proof. reflexivity. Qed.

Example translate_example :
  Py.universal_newlines (String "a" (String Py.CR (String Py.LF (String "b" (String Py.CR "c")))))
  = "a" +:+ nl +:+ "b" +:+ nl +:+ "c".
Proof. reflexivity. Qed.

Example read_literal :
  read_saved_version (mkfs [("version", "# comment" +:+ nl +:+ "1.2.0" +:+ nl)])
  = Ok "1.2.0".
Proof. vm_compute. reflexivity. Qed.

Example long_description_example :
  long_description
    (mkfs [("README", "Title" +:+ nl +:+ nl +:+ "Summary" +:+ nl +:+ "More  "
                       +:+ nl +:+ nl +:+ nl +:+ "Rest" +:+ nl)])
  = Ok ("Summary" +:+ nl +:+ "More").
Proof. vm_compute. reflexivity. Qed.

Example sdist_example :
  (fs' ← match make_release_tree "1.0" "pkg-1.0"
                 (mkfs [("pkg-1.0/version", "__use_git__" +:+ nl)])
          with Ok fs' => Some fs' | Raise _ => None end;
   content fs' "pkg-1.0/version")
  = Some (marker_text "1.0").
Proof. vm_compute. reflexivity. Qed.

Example resolve_clean :
  run (resolve_version dynamic_fs (repo "/src/pkg" "v1.0-0-g1a2b3c4" 0))
  = (Ok "1.0", [git_toplevel; git_describe first_parent; git_diff]).
Proof. vm_compute. reflexivity. Qed.

Example resolve_ahead :
  fst (run (resolve_version dynamic_fs (repo "/src/pkg" "v1.0-3-g1a2b3c4" 0)))
  = Ok "1.0.dev3+g1a2b3c4".
Proof. vm_compute. reflexivity. Qed.

Example resolve_dirty :
  fst (run (resolve_version dynamic_fs (repo "/src/pkg" "v1.0-0-g1a2b3c4" 1)))
  = Ok "1.0+dirty".
Proof. vm_compute. reflexivity. Qed.

Example resolve_ahead_dirty :
  fst (run (resolve_version dynamic_fs (repo "/src/pkg" "v1.0-3-g1a2b3c4" 1)))
  = Ok "1.0.dev3+g1a2b3c4.dirty".
Proof. vm_compute. reflexivity. Qed.

Example build_ext_example :
  after (our_build_ext_run "1.0" (mkfs []))
    (fun fs' => content fs' "src/version.hh")
  = Some (Some (header_text "1.0")).
Proof. vm_compute. reflexivity. Qed.

Example resolve_dashed_tag :
  fst (run (resolve_version dynamic_fs dashed_tag_repo)) = Ok "1.0-rc1.dev3+g1a2b3c4".
Proof. vm_compute. reflexivity. Qed.

Example resolve_bare_id :
  fst (run (resolve_version dynamic_fs bare_id_repo)) = Raise ValueError.
Proof. vm_compute. reflexivity. Qed.

(** ** The log is only ever extended *)


Lemma logging_ret {A} (a : A) : logging (ret a).
Proof. intros log. unfold ret. simpl. by rewrite app_nil_r. Qed.

Lemma logging_raise {A} (e : exn) : logging (@raise A e).
Proof. intros log. unfold raise. simpl. by rewrite app_nil_r. Qed.

Lemma logging_lift {A} (r : result A) : logging (lift r).
Proof. intros log. unfold lift. simpl. by rewrite app_nil_r. Qed.

Lemma logging_try_Popen w argv : logging (try_Popen w argv).
Proof. intros log. reflexivity. Qed.

Lemma logging_bind {A B} (m : Run A) (k : A -> Run B) :
  logging m -> (forall a, logging (k a)) -> logging (bind m k).
Proof.
  intros Hm Hk log. unfold bind.
  rewrite (Hm log). destruct (m []) as [[a|e] l0]; simpl.
  - rewrite (Hk a (log ++ l0)), (Hk a l0). simpl. by rewrite app_assoc.
  - reflexivity.
Qed.

Create HintDb logging.
#[local] Hint Resolve logging_ret logging_raise logging_lift
  logging_try_Popen : logging.

Ltac logging_step :=
  first [ apply logging_bind; [| intros ? ]
        | match goal with |- logging (match ?x with _ => _ end) => destruct x end
        | match goal with |- logging (if ?x then _ else _) => destruct x end
        | solve [ auto with logging ] ].

Lemma logging_describe_loop w optss : logging (describe_loop w optss).
Proof.
  induction optss as [|opts rest IH]; simpl; repeat logging_step.
Qed.

Lemma logging_dirty_check w labels : logging (dirty_check w labels).
Proof. unfold dirty_check. repeat logging_step. Qed.

#[local] Hint Resolve logging_describe_loop logging_dirty_check : logging.

Lemma logging_version_of_description w out :
  logging (version_of_description w out).
Proof.
  unfold version_of_description.
  destruct (Py.rsplit _ _ _) as [|r [|d [|g [|? ?]]]]; auto with logging.
  destruct (negb _); repeat logging_step.
Qed.

#[local] Hint Resolve logging_version_of_description : logging.

Lemma logging_get_version_from_git w : logging (get_version_from_git w).
Proof. unfold get_version_from_git. repeat logging_step. Qed.


(** ** Strings *)

#[local] Arguments String.append !s1 s2 : simpl nomatch.

Lemma append_nil_r (s : string) : s +:+ "" = s.
Proof. induction s as [|c s IH]; simpl; [done | by rewrite IH]. Qed.

Lemma append_assoc (a b c : string) : (a +:+ b) +:+ c = a +:+ (b +:+ c).
Proof. induction a as [|x a IH]; simpl; [done | by rewrite IH]. Qed.

Lemma decimal_zero (n : nat) : decimal n = "0" <-> n = 0.
Proof.
  split; [| by intros ->].
  intros H. apply DecimalNat.Unsigned.to_uint_inj.
  assert (Hs : NilEmpty.uint_of_string (decimal n) = NilEmpty.uint_of_string "0")
    by (by rewrite H).
  unfold decimal in Hs. rewrite NilEmpty.usu in Hs.
  by injection Hs.
Qed.

(** ** The resolver *)

Lemma resolve_version_literal fs w X :
  read_saved_version fs = Ok X -> X <> use_git ->
  run (resolve_version fs w) = (Ok X, []).
Proof.
  intros Hread Hne. unfold run, resolve_version, bind, lift. rewrite Hread.
  destruct (String.eqb_spec X use_git); [done | reflexivity].
Qed.

Lemma resolve_version_dynamic fs w :
  read_saved_version fs = Ok use_git ->
  run (resolve_version fs w) =
    match run (get_version_from_git w) with
    | (Ok None, l) | (Ok (Some ""), l) => (Ok "unknown", l)
    | (Ok (Some v), l) => (Ok v, l)
    | (Raise e, l) => (Raise e, l)
    end.
Proof.
  intros Hread. unfold run, resolve_version, bind, lift. rewrite Hread. simpl.
  destruct (get_version_from_git w []) as [[[[|c v]|]|e] l]; reflexivity.
Qed.

Lemma get_version_gate_closed w :
  toplevel_fails w -> run (get_version_from_git w) = (Ok None, [git_toplevel]).
Proof.
  unfold run, get_version_from_git, bind, try_Popen, lift.
  intros [[e H] | [(p & H & Hrc) | (p & H & Hsame)]]; rewrite H; simpl.
  - reflexivity.
  - destruct (Z.eqb_spec (returncode p) 0); [done | reflexivity].
  - destruct (returncode p =? 0)%Z; simpl; [| reflexivity].
    rewrite Hsame. reflexivity.
Qed.

Lemma get_version_gate_open w :
  toplevel_passes w ->
  run (get_version_from_git w) =
    (let* r := describe_loop w [first_parent; []] in
     match r with
     | None => ret None
     | Some p => version_of_description w (stdout p)
     end) [git_toplevel].
Proof.
  intros (p & H & Hrc & Hsame).
  unfold run, get_version_from_git, bind at 1, try_Popen, lift.
  rewrite H. simpl. rewrite Hrc. simpl.
  unfold bind at 1. rewrite Hsame. reflexivity.
Qed.

Lemma describe_loop_first w p log :
  describe_exits_zero w first_parent p ->
  describe_loop w [first_parent; []] log
  = (Ok (Some p), log ++ [git_describe first_parent]).
Proof.
  intros [H Hrc]. unfold describe_loop, bind, try_Popen, ret.
  by rewrite H, Hrc.
Qed.

Lemma describe_loop_retry w p log :
  describe_exits_nonzero w first_parent -> describe_exits_zero w [] p ->
  describe_loop w [first_parent; []] log
  = (Ok (Some p), log ++ [git_describe first_parent; git_describe []]).
Proof.
  intros (p1 & H1 & Hrc1) [H Hrc]. unfold describe_loop, bind, try_Popen, ret.
  rewrite H1. destruct (Z.eqb_spec (returncode p1) 0); [done |].
  rewrite H, Hrc. by rewrite <- app_assoc.
Qed.

Lemma describe_loop_succeeds w p log :
  describe_succeeds w p ->
  exists tried, describe_loop w [first_parent; []] log = (Ok (Some p), log ++ tried).
Proof.
  intros [H | [H1 H]].
  - eexists. by apply describe_loop_first.
  - eexists. by apply describe_loop_retry.
Qed.

Lemma describe_loop_log_head w log :
  exists r rest,
    describe_loop w [first_parent; []] log
    = (r, log ++ git_describe first_parent :: rest).
Proof.
  unfold describe_loop, bind, try_Popen, ret.
  destruct (spawn w (git_describe first_parent)) as [p1|e1]; [| by do 2 eexists].
  destruct (returncode p1 =? 0)%Z; [by do 2 eexists |].
  destruct (spawn w (git_describe [])) as [p2|e2];
    [destruct (returncode p2 =? 0)%Z |]; rewrite <- app_assoc; by do 2 eexists.
Qed.

Lemma describe_loop_fails w log :
  describe_exits_nonzero w first_parent -> describe_exits_nonzero w [] ->
  describe_loop w [first_parent; []] log
  = (Ok None, log ++ [git_describe first_parent; git_describe []]).
Proof.
  intros (p1 & H1 & Hrc1) (p2 & H2 & Hrc2).
  unfold describe_loop, bind, try_Popen, ret. rewrite H1.
  destruct (Z.eqb_spec (returncode p1) 0); [done |]. rewrite H2.
  destruct (Z.eqb_spec (returncode p2) 0); [done |].
  by rewrite <- app_assoc.
Qed.

(** The labels that the dirty check queues. *)
Lemma dirty_check_labels w labels log :
  dirty_check w labels log =
    (Ok (labels ++ match diff_exit w with
                   | None => ["confused"]
                   | Some 1%Z => ["dirty"]
                   | Some _ => []
                   end), log ++ [git_diff]).
Proof.
  unfold dirty_check, diff_exit, bind, try_Popen, ret.
  destruct (spawn w git_diff) as [d|e]; [| reflexivity].
  destruct (returncode d) as [|[q|q|]|q]; simpl; by rewrite ?app_nil_r.
Qed.

(** From the three fields of the description to the version, whatever
    the text of the distance field. *)
Lemma version_of_description_fields w out R dev C log :
  Py.rsplit "-" 2 (description_of out) = [R; dev; C] ->
  let ahead := negb (String.eqb dev "0") in
  let labels :=
    (if ahead then [C] else [])
    ++ match diff_exit w with
       | None => ["confused"]
       | Some 1%Z => ["dirty"]
       | Some _ => []
       end in
  version_of_description w out log =
    (Ok (Some (R +:+ (if ahead then ".dev" +:+ dev else "")
                 +:+ match labels with
                     | [] => ""
                     | _ => "+" +:+ Py.join "." labels
                     end)),
     log ++ [git_diff]).
Proof.
  intros Hfields. unfold version_of_description. rewrite Hfields.
  destruct (negb (String.eqb dev "0")); simpl;
    unfold bind; rewrite dirty_check_labels; unfold ret, Py.concat;
    destruct (diff_exit w) as [[|[q|q|]|q]|]; simpl;
    by rewrite ?append_nil_r.
Qed.

(** C9.  Past the top-level check, the first describe invocation is the
    first-parent one.  When it exits with a code other than 0 the
    describe is spawned once more, without the option, and a retry that
    exits with 0 provides the output from which the version is built;
    when the retry too exits with a code other than 0, the resolved
    version is ["unknown"]. *)
Theorem describe_first_parent_then_all w :
  toplevel_passes w ->
  (exists rest,
     snd (run (get_version_from_git w))
     = git_toplevel :: git_describe first_parent :: rest)
  /\ (describe_exits_nonzero w first_parent ->
      forall p, describe_exits_zero w [] p ->
      run (get_version_from_git w)
      = version_of_description w (stdout p)
          [git_toplevel; git_describe first_parent; git_describe []])
  /\ (describe_exits_nonzero w first_parent ->
      describe_exits_nonzero w [] ->
      run (get_version_from_git w)
      = (Ok None, [git_toplevel; git_describe first_parent; git_describe []])
      /\ forall fs, read_saved_version fs = Ok use_git ->
           run (resolve_version fs w)
           = (Ok "unknown",
              [git_toplevel; git_describe first_parent; git_describe []])).
Proof.
  intros Htop. rewrite (get_version_gate_open _ Htop).
  split; [| split].
  - destruct (describe_loop_log_head w [git_toplevel]) as (r & rest & Hloop).
    unfold bind. rewrite Hloop. destruct r as [[p|]|e]; simpl; try by eexists.
    rewrite (logging_version_of_description w (stdout p)). simpl. by eexists.
  - intros Hfirst p Hretry. unfold bind.
    by rewrite (describe_loop_retry _ _ _ Hfirst Hretry).
  - intros Hfirst Hretry. split.
    + unfold bind. by rewrite (describe_loop_fails _ _ Hfirst Hretry).
    + intros fs Hread. rewrite (resolve_version_dynamic _ _ Hread).
      rewrite (get_version_gate_open _ Htop). unfold bind.
      by rewrite (describe_loop_fails _ _ Hfirst Hretry).
Qed.

Lemma merged_tag_repo_toplevel : toplevel_passes merged_tag_repo.
Proof.
  exists {| returncode := 0; stdout := "/src/pkg" +:+ nl |}.
  split; [vm_compute; reflexivity |]. split; [reflexivity |].
  vm_compute. reflexivity.
Qed.

Lemma merged_tag_repo_first : describe_exits_nonzero merged_tag_repo first_parent.
Proof.
  exists {| returncode := 128; stdout := "" |}.
  split; [vm_compute; reflexivity | discriminate].
Qed.

Lemma merged_tag_repo_retry :
  describe_exits_zero merged_tag_repo []
    {| returncode := 0; stdout := "v2.0-1-g5e6f7a8" +:+ nl |}.
Proof. split; [vm_compute; reflexivity | reflexivity]. Qed.

Lemma describe_first_parent_then_all_witness :
  run (get_version_from_git merged_tag_repo)
  = (Ok (Some "2.0.dev1+g5e6f7a8"),
     [git_toplevel; git_describe first_parent; git_describe []; git_diff]).
Proof.
  destruct (describe_first_parent_then_all merged_tag_repo merged_tag_repo_toplevel)
    as (_ & Hretry & _).
  rewrite (Hretry merged_tag_repo_first _ merged_tag_repo_retry).
  vm_compute. reflexivity.
Defined.

(** The string that [get_version_from_git] returns from the three
    fields of the description, the distance being the decimal of [N]. *)
Lemma version_from_git_format w p R N C :
  toplevel_passes w ->
  describe_succeeds w p ->
  Py.rsplit "-" 2 (description_of (stdout p)) = [R; decimal N; C] ->
  let commit := match N with O => [] | S _ => [C] end in
  let dirty := match diff_exit w with
               | None => ["confused"]
               | Some 1%Z => ["dirty"]
               | Some _ => []
               end in
  let labels := commit ++ dirty in
  fst (run (get_version_from_git w))
  = Ok (Some (R +:+ match N with O => "" | S _ => ".dev" +:+ decimal N end
                +:+ match labels with
                    | [] => ""
                    | _ => "+" +:+ Py.join "." labels
                    end))
  /\ (N = 0 -> diff_exit w = Some 1%Z ->
      fst (run (get_version_from_git w)) = Ok (Some (R +:+ "+dirty"))).
Proof.
  intros Htop Hdesc Hfields.
  assert (Hrun : fst (run (get_version_from_git w))
                 = fst (version_of_description w (stdout p) [])).
  { rewrite (get_version_gate_open _ Htop). unfold bind.
    destruct (describe_loop_succeeds w p [git_toplevel] Hdesc) as (tried & ->).
    by rewrite (logging_version_of_description w (stdout p)). }
  rewrite Hrun, (version_of_description_fields _ _ _ _ _ _ Hfields). simpl fst.
  assert (Hzero : negb (String.eqb (decimal N) "0")
                  = match N with O => false | S _ => true end).
  { destruct (String.eqb_spec (decimal N) "0") as [Heq | Hne].
    - apply decimal_zero in Heq. by subst.
    - destruct N; [by destruct Hne | done]. }
  rewrite Hzero. split.
  - by destruct N.
  - intros -> ->. reflexivity.
Qed.


(** ** Reading the saved version *)

Lemma first_version_cases (ls : list string) :
  let stripped := map (Py.strip Py.isspace) ls in
  (Forall (fun l => is_comment l = true) stripped
   /\ first_version ls = Raise no_version)
  \/ (exists pre v post,
        stripped = pre ++ v :: post
        /\ Forall (fun l => is_comment l = true) pre
        /\ is_comment v = false
        /\ first_version ls = Ok v).
Proof.
  induction ls as [|line rest IH]; simpl.
  - left. by split.
  - unfold is_comment at 1 3.
    destruct (Py.startswith (Py.strip Py.isspace line) "#") eqn:Hc.
    + destruct IH as [[Hall Hraise] | (pre & v & post & Heq & Hpre & Hv & Hok)].
      * left. split; [by constructor | done].
      * right. exists (Py.strip Py.isspace line :: pre), v, post.
        simpl in *. rewrite Heq. repeat split; try done. by constructor.
    + right. exists [], (Py.strip Py.isspace line), (map (Py.strip Py.isspace) rest).
      repeat split; try done.
Qed.

(** C2, as the code has it.  Each line of the saved version file is
    stripped of the white space around it; the lines that then begin with
    [#] are passed over and the first other line, which is empty when the
    line is blank, is the value.  Reading fails when the file is not
    there, with the error of [open], and when every line is a comment
    (an empty file too), with the [RuntimeError] of the script; it fails
    in no other case. *)
Theorem saved_version_is_first_uncommented_line fs :
  match content fs SAVED_VERSION_FILE with
  | None => read_saved_version fs = Raise (OSError ENOENT)
  | Some raw =>
      let stripped :=
        map (Py.strip Py.isspace) (Py.lines (Py.universal_newlines raw)) in
      (Forall (fun l => is_comment l = true) stripped
       /\ read_saved_version fs = Raise no_version)
      \/ (exists pre v post,
            stripped = pre ++ v :: post
            /\ Forall (fun l => is_comment l = true) pre
            /\ is_comment v = false
            /\ read_saved_version fs = Ok v)
  end.
Proof.
  unfold read_saved_version, open_read.
  destruct (content fs SAVED_VERSION_FILE) as [raw|]; [| reflexivity].
  apply first_version_cases.
Qed.

(** C2 as stated fails: a blank line before the version is taken as the
    value, and a file of one blank line has no significant line and yet
    is read without an error. *)
Lemma blank_line_is_taken_as_version :
  (read_saved_version (mkfs [("version", nl +:+ "1.0" +:+ nl)]) = Ok ""
   /\ spec_read_saved_version (mkfs [("version", nl +:+ "1.0" +:+ nl)]) = Ok "1.0")
  /\ (read_saved_version (mkfs [("version", nl)]) = Ok ""
      /\ spec_read_saved_version (mkfs [("version", nl)]) = Raise no_version).
Proof. repeat split; vm_compute; reflexivity. Qed.

(** ** The resolved version *)

Lemma first_version_found ls : forall pre X post,
  map (Py.strip Py.isspace) ls = pre ++ X :: post ->
  Forall (fun l => is_comment l = true) pre ->
  is_comment X = false ->
  first_version ls = Ok X.
Proof.
  induction ls as [|l ls IH]; intros pre X post Heq Hpre HX.
  - by destruct pre.
  - destruct pre as [|c pre]; simpl in Heq; injection Heq as Hl Hrest.
    + simpl. rewrite Hl. unfold is_comment in HX. by rewrite HX.
    + apply Forall_cons in Hpre as [Hc Hpre].
      simpl. rewrite Hl. unfold is_comment in Hc. rewrite Hc.
      by apply (IH pre X post).
Qed.

Lemma marker_value_read fs X :
  marker_value_is fs X <-> read_saved_version fs = Ok X.
Proof.
  unfold marker_value_is, read_saved_version, open_read. split.
  - intros (raw & pre & post & -> & Heq & Hpre & HX).
    by apply (first_version_found _ pre X post).
  - destruct (content fs SAVED_VERSION_FILE) as [raw|]; [| done].
    intros Hread.
    destruct (first_version_cases (Py.lines (Py.universal_newlines raw)))
      as [[_ Hraise] | (pre & v & post & Heq & Hpre & Hv & Hok)];
      [congruence |].
    assert (v = X) as -> by congruence.
    by exists raw, pre, post.
Qed.

(** C7, as the code has it.  When the first line of the saved version
    file that is not a comment, a blank line counting as such a line, is,
    once stripped, a string [X] other than the dynamic sentinel, the
    resolved version is [X], in every state of the repository, and no
    [git] command is spawned. *)
Theorem literal_marker_is_returned_verbatim fs X :
  marker_value_is fs X -> X <> use_git ->
  forall w, run (resolve_version fs w) = (Ok X, []).
Proof.
  intros Hmarker Hne w. apply marker_value_read in Hmarker.
  by apply resolve_version_literal.
Qed.

Lemma literal_marker_is_returned_verbatim_witness :
  run (resolve_version
         (mkfs [("version", "# pinned" +:+ nl +:+ "  1.2.0  " +:+ nl +:+ "2.0" +:+ nl)])
         (repo "/src/pkg" "v9.9-3-g1a2b3c4" 1))
  = (Ok "1.2.0", []).
Proof.
  apply (literal_marker_is_returned_verbatim
           (mkfs [("version", "# pinned" +:+ nl +:+ "  1.2.0  " +:+ nl +:+ "2.0" +:+ nl)])
           "1.2.0").
  - exists ("# pinned" +:+ nl +:+ "  1.2.0  " +:+ nl +:+ "2.0" +:+ nl),
      ["# pinned"], ["2.0"].
    split; [vm_compute; reflexivity |]. split; [vm_compute; reflexivity |].
    split; [by repeat constructor | reflexivity].
  - discriminate.
Defined.

(** C7 as stated fails: in a saved version file with a blank line
    between the comment and the version, the significant line is the
    literal version, and the resolved version is the empty string. *)
Lemma blank_line_hides_literal_version :
  spec_read_saved_version blank_before_literal = Ok "1.2.0"
  /\ "1.2.0" <> use_git
  /\ run (resolve_version blank_before_literal (repo "/src/pkg" "v9.9-3-g1a2b3c4" 1))
     = (Ok "", [])
  /\ fst (run (resolve_version blank_before_literal
                 (repo "/src/pkg" "v9.9-3-g1a2b3c4" 1))) <> Ok "1.2.0".
Proof.
  split; [vm_compute; reflexivity |]. split; [discriminate |].
  split; [vm_compute; reflexivity | vm_compute; discriminate].
Qed.

(** C6, as the code has it.  When the value of the marker is the dynamic
    sentinel and the tool cannot be run, or the top-level query exits
    with a code other than 0, or [os.path.samefile] finds the directory
    that the query reports to be another directory than that of the
    script, the resolved version is ["unknown"], nothing is raised, and
    the top-level query is the only command spawned. *)
Theorem unknown_when_not_at_toplevel fs w :
  marker_value_is fs use_git ->
  toplevel_fails w ->
  run (resolve_version fs w) = (Ok "unknown", [git_toplevel]).
Proof.
  intros Hmarker Hfail. apply marker_value_read in Hmarker.
  rewrite (resolve_version_dynamic _ _ Hmarker).
  by rewrite (get_version_gate_closed _ Hfail).
Qed.

Lemma dynamic_fs_marker : marker_value_is dynamic_fs use_git.
Proof.
  exists ("__use_git__" +:+ nl), [], [].
  split; [vm_compute; reflexivity |]. split; [vm_compute; reflexivity |].
  split; [constructor | reflexivity].
Qed.

Lemma unknown_when_not_at_toplevel_witness :
  run (resolve_version dynamic_fs nested_checkout) = (Ok "unknown", [git_toplevel]).
Proof.
  apply unknown_when_not_at_toplevel.
  - apply dynamic_fs_marker.
  - right. right. exists {| returncode := 0; stdout := "/src/outer" +:+ nl |}.
    split; vm_compute; reflexivity.
Defined.

(** C6 as stated fails.  When the directory that the top-level query
    reports cannot be examined it is not the directory of the script, and
    the error of [os.path.samefile] is raised.  And when a blank line
    comes before the sentinel in the saved version file, the resolved
    version is the empty string, also on a machine without [git]. *)
Lemma unknown_is_not_guaranteed :
  (read_saved_version dynamic_fs = Ok use_git
   /\ spawn unreadable_toplevel git_toplevel
      = OsOk {| returncode := 0; stdout := "/src/gone" +:+ nl |}
   /\ samefile unreadable_toplevel "/src/gone" (distr_root unreadable_toplevel)
      = OsError ENOENT
   /\ run (resolve_version dynamic_fs unreadable_toplevel)
      = (Raise (OSError ENOENT), [git_toplevel]))
  /\ (spec_read_saved_version blank_before_sentinel = Ok use_git
      /\ spawn no_git git_toplevel = OsError ENOENT
      /\ run (resolve_version blank_before_sentinel no_git) = (Ok "", [])).
Proof. repeat split; vm_compute; reflexivity. Qed.

Lemma assembled_is_empty R devs (labels : list string) :
  R +:+ devs +:+ match labels with
                 | [] => ""
                 | _ => "+" +:+ Py.join "." labels
                 end = ""
  <-> R = "" /\ devs = "" /\ labels = [].
Proof.
  split.
  - destruct R; [| done]. destruct devs; [| done]. by destruct labels.
  - by intros (-> & -> & ->).
Qed.

(** C1, as the code has it.  In a run of the resolver on the dynamic
    sentinel in which the describe query succeeds and its output parses
    into the release [R], the distance [N] and the commit id [C], the
    string that is assembled is [R], followed by [.dev<N>] exactly when
    [N] is not zero, followed by [+] and the queued labels joined by [.]
    exactly when a label was queued; the labels are [C] when [N] is not
    zero, then [dirty] when the dirty check exits with 1 ([confused] when
    it cannot be run).  The resolved version is that string, unless it is
    empty, which it is exactly when [R] is empty, [N] is zero and no
    label was queued: the resolved version is then ["unknown"].  With
    distance zero and a dirty tree the resolved version is [R] followed
    by [+dirty]. *)
Theorem resolved_version_format fs w p R N C :
  marker_value_is fs use_git ->
  toplevel_passes w ->
  describe_succeeds w p ->
  Py.rsplit "-" 2 (description_of (stdout p)) = [R; decimal N; C] ->
  let commit := match N with O => [] | S _ => [C] end in
  let dirty := match diff_exit w with
               | None => ["confused"]
               | Some 1%Z => ["dirty"]
               | Some _ => []
               end in
  let labels := commit ++ dirty in
  let assembled :=
    R +:+ match N with O => "" | S _ => ".dev" +:+ decimal N end
      +:+ match labels with
          | [] => ""
          | _ => "+" +:+ Py.join "." labels
          end in
  fst (run (get_version_from_git w)) = Ok (Some assembled)
  /\ fst (run (resolve_version fs w))
     = Ok (if String.eqb assembled "" then "unknown" else assembled)
  /\ (assembled = "" <-> R = "" /\ N = 0 /\ labels = [])
  /\ (N = 0 -> diff_exit w = Some 1%Z ->
      fst (run (resolve_version fs w)) = Ok (R +:+ "+dirty")).
Proof.
  intros Hmarker Htop Hdesc Hfields commit dirty labels assembled.
  apply marker_value_read in Hmarker.
  destruct (version_from_git_format w p R N C Htop Hdesc Hfields) as [Hgit _].
  change (fst (run (get_version_from_git w)) = Ok (Some assembled)) in Hgit.
  assert (Hres : fst (run (resolve_version fs w))
                 = Ok (if String.eqb assembled "" then "unknown" else assembled)).
  { rewrite (resolve_version_dynamic _ _ Hmarker).
    destruct (run (get_version_from_git w)) as [r l]. simpl in Hgit. subst r.
    by destruct assembled. }
  split; [done |]. split; [done |]. split.
  - unfold assembled. rewrite assembled_is_empty.
    split; intros (HR & HN & Hl); repeat split; try done.
    + by destruct N.
    + by subst N.
  - intros HN Hdiff. rewrite Hres. unfold assembled, labels, commit, dirty.
    rewrite HN, Hdiff. simpl. by destruct R.
Qed.

Lemma resolved_version_format_witness :
  fst (run (resolve_version dynamic_fs (repo "/src/pkg" "v1.0-3-g1a2b3c4" 1)))
  = Ok "1.0.dev3+g1a2b3c4.dirty".
Proof.
  pose proof (resolved_version_format dynamic_fs
                (repo "/src/pkg" "v1.0-3-g1a2b3c4" 1)
                {| returncode := 0; stdout := "v1.0-3-g1a2b3c4" +:+ nl |}
                "1.0" 3 "g1a2b3c4") as H.
  destruct H as (_ & H & _).
  - apply dynamic_fs_marker.
  - exists {| returncode := 0; stdout := "/src/pkg" +:+ nl |}.
    repeat split; vm_compute; reflexivity.
  - left. split; vm_compute; reflexivity.
  - vm_compute. reflexivity.
  - rewrite H. vm_compute. reflexivity.
Defined.

(** C1 as stated fails: for a tag named [v], at distance zero in a clean
    tree, the output parses into the empty release, and the resolver does
    not return the release, it returns ["unknown"]. *)
Lemma empty_release_resolves_to_unknown :
  toplevel_passes empty_release_repo
  /\ describe_succeeds empty_release_repo
       {| returncode := 0; stdout := "v-0-g1a2b3c4" +:+ nl |}
  /\ Py.rsplit "-" 2 (description_of ("v-0-g1a2b3c4" +:+ nl))
     = [""; decimal 0; "g1a2b3c4"]
  /\ diff_exit empty_release_repo = Some 0%Z
  /\ fst (run (resolve_version dynamic_fs empty_release_repo)) = Ok "unknown"
  /\ fst (run (resolve_version dynamic_fs empty_release_repo)) <> Ok "".
Proof.
  split.
  { exists {| returncode := 0; stdout := "/src/pkg" +:+ nl |}.
    repeat split; vm_compute; reflexivity. }
  split; [left; split; vm_compute; reflexivity |].
  repeat split; try (vm_compute; reflexivity). vm_compute. discriminate.
Qed.

(** ** The long description *)


Lemma prev_blank_snoc text l : prev_blank (text ++ [l]) = String.eqb l nl.
Proof. unfold prev_blank. by rewrite last_snoc. Qed.

Lemma scan_readme_skip pre ls :
  Forall (fun l => l <> nl) pre ->
  scan_readme (pre ++ ls) true [] = scan_readme ls true [].
Proof.
  induction 1 as [|l pre Hl _ IH]; [done |]. simpl.
  by destruct (String.eqb_spec l nl).
Qed.

Lemma scan_readme_body body : forall text tail,
  no_blank_pair (prev_blank text) body = true ->
  scan_readme (body ++ tail) false text = scan_readme tail false (text ++ body).
Proof.
  induction body as [|l body IH]; intros text tail Hbody; simpl.
  - by rewrite app_nil_r.
  - simpl in Hbody. destruct (String.eqb_spec l nl) as [-> | Hl].
    + apply andb_prop in Hbody as [Hprev Hbody].
      unfold prev_blank in Hprev. destruct (last text) as [t|]; [| done].
      destruct (String.eqb t nl); [done |].
      rewrite IH, <- app_assoc; [done |]. by rewrite prev_blank_snoc.
    + rewrite IH, <- app_assoc; [done |]. rewrite prev_blank_snoc.
      by destruct (String.eqb_spec l nl).
Qed.

Lemma scan_readme_stop init t rest :
  t <> nl ->
  scan_readme (nl :: nl :: rest) false (init ++ [t]) = Ok (init ++ [t]).
Proof.
  intros Ht. simpl. rewrite last_snoc.
  destruct (String.eqb_spec t nl); [done |].
  rewrite last_snoc. simpl. by rewrite removelast_last.
Qed.

(** C3, as the code has it.  [long_description] drops every line up to
    and including the first blank line; from there it keeps the lines,
    single blank lines too, up to the end of the file or to the first
    blank line that follows a kept blank line, which it drops together
    with that kept blank line; the white space at the end of the last
    kept line is stripped, the other lines are kept as they are. *)
Theorem long_description_is_text_after_first_blank fs s pre init t tail :
  open_read fs README_FILE = OsOk s ->
  Py.lines s = pre ++ nl :: (init ++ [t]) ++ tail ->
  Forall (fun l => l <> nl) pre ->
  no_blank_pair true (init ++ [t]) = true ->
  tail = [] \/ (t <> nl /\ exists rest, tail = nl :: nl :: rest) ->
  long_description fs = Ok (Py.concat (init ++ [Py.rstrip Py.isspace t])).
Proof.
  intros Hopen Hlines Hpre Hbody Htail.
  unfold long_description. rewrite Hopen, Hlines.
  rewrite (scan_readme_skip _ _ Hpre). simpl.
  rewrite (scan_readme_body _ [] tail Hbody). simpl.
  destruct Htail as [-> | (Ht & rest & ->)].
  - simpl. by rewrite last_snoc, removelast_last.
  - rewrite (scan_readme_stop _ _ _ Ht). by rewrite last_snoc, removelast_last.
Qed.

Lemma long_description_is_text_after_first_blank_witness :
  long_description (mkfs [("README", titled_readme)])
  = Ok ("Summary" +:+ nl +:+ nl +:+ "More text").
Proof.
  apply (long_description_is_text_after_first_blank
           (mkfs [("README", titled_readme)]) titled_readme
           ["Title" +:+ nl; "=====" +:+ nl]
           ["Summary" +:+ nl; nl] ("More text  " +:+ nl)
           [nl; nl; "Rest" +:+ nl]).
  - vm_compute. reflexivity.
  - vm_compute. reflexivity.
  - repeat constructor; discriminate.
  - vm_compute. reflexivity.
  - right. split; [discriminate | by eexists].
Defined.

(** C3 as stated fails: on the README of the specification's example the
    function does not return the title and the summary, it returns the
    empty string. *)
Lemma spec_readme_gives_empty_description :
  long_description (mkfs [("README", spec_readme)]) = Ok ""
  /\ long_description (mkfs [("README", spec_readme)])
     <> Ok ("Title" +:+ nl +:+ "Summary").
Proof. split; vm_compute; [reflexivity | discriminate]. Qed.

(** C4 fails on the code: with an empty README nothing is kept, and the
    look-up of the last kept line, which is made after the [try]
    statement, raises. *)
Theorem long_description_raises_on_empty_readme :
  long_description (mkfs [("README", "")]) = Raise IndexError.
Proof. vm_compute. reflexivity. Qed.

(** ** The file system *)

Lemma open_write_content fs path data fs' :
  open_write fs path data = OsOk fs' -> content fs' path = Some data.
Proof.
  unfold open_write, content. case_decide; [done |].
  destruct (names fs !! path) as [i|] eqn:Hname; intros [= <-]; simpl.
  - rewrite Hname. simpl. by rewrite lookup_insert_eq.
  - rewrite lookup_insert_eq. simpl. by rewrite lookup_insert_eq.
Qed.

Lemma open_write_allowed fs path data :
  path ∉ no_write fs -> exists fs', open_write fs path data = OsOk fs'.
Proof.
  intros Hw. unfold open_write. case_decide; [done |].
  destruct (names fs !! path); by eexists.
Qed.

Lemma open_write_no_write fs path data fs' :
  open_write fs path data = OsOk fs' ->
  (path ∉ no_write fs) /\ no_write fs' = no_write fs.
Proof.
  unfold open_write. case_decide; [done |].
  destruct (names fs !! path); by intros [= <-].
Qed.

Lemma os_remove_no_write fs path fs' :
  os_remove fs path = OsOk fs' -> no_write fs' = no_write fs.
Proof.
  unfold os_remove. destruct (names fs !! path); [| done].
  case_decide; [done |]. by intros [= <-].
Qed.

(** ** The [sdist] hook *)

Lemma make_release_tree_content version base_dir fs fs' :
  make_release_tree version base_dir fs = Ok fs' ->
  content fs' (marker_path base_dir) = Some (marker_text version).
Proof.
  unfold make_release_tree, marker_path.
  destruct (open_write _ _ _) as [fs1|e] eqn:Hw; [| done].
  intros [= <-]. by apply open_write_content in Hw.
Qed.

Lemma make_release_tree_no_write version base_dir fs fs' :
  make_release_tree version base_dir fs = Ok fs' ->
  (marker_path base_dir ∉ no_write fs) /\ no_write fs' = no_write fs.
Proof.
  unfold make_release_tree, marker_path.
  destruct (open_write _ _ _) as [fs1|e] eqn:Hw; [| done].
  intros [= <-]. apply open_write_no_write in Hw as [Hin Heq].
  destruct (os_remove fs _) as [fs0|e] eqn:Hrm; [| done].
  apply os_remove_no_write in Hrm. rewrite Hrm in *. done.
Qed.

Lemma make_release_tree_allowed version base_dir fs :
  marker_path base_dir ∉ no_write fs ->
  exists fs', make_release_tree version base_dir fs = Ok fs'.
Proof.
  intros Hw. unfold make_release_tree. fold (marker_path base_dir).
  destruct (os_remove fs _) as [fs0|e] eqn:Hrm.
  - apply os_remove_no_write in Hrm. rewrite <- Hrm in Hw.
    destruct (open_write_allowed fs0 _ (marker_text version) Hw) as [fs' ->].
    by eexists.
  - destruct (open_write_allowed fs _ (marker_text version) Hw) as [fs' ->].
    by eexists.
Qed.

(** C5, as the code has it.  Whatever the error of the removal of the
    marker of the snapshot, a missing file or another one, it is
    dropped: the fresh marker is written next, and when the path can be
    opened for writing the hook ends without an error, the marker of the
    snapshot holding the generated comment and the version. *)
Theorem any_removal_error_is_tolerated version base_dir fs e :
  os_remove fs (marker_path base_dir) = OsError e ->
  make_release_tree version base_dir fs
  = of_os (open_write fs (marker_path base_dir) (marker_text version))
  /\ (marker_path base_dir ∉ no_write fs ->
      exists fs', (make_release_tree version base_dir fs = Ok fs'
                   /\ content fs' (marker_path base_dir) = Some (marker_text version))).
Proof.
  intros Hrm. split.
  - unfold make_release_tree. fold (marker_path base_dir). by rewrite Hrm.
  - intros Hw. destruct (make_release_tree_allowed version base_dir fs Hw) as [fs' H].
    exists fs'. split; [done |]. by apply make_release_tree_content in H.
Qed.

Lemma any_removal_error_is_tolerated_witness :
  exists fs', (make_release_tree "1.0" "pkg-1.0" linked_snapshot = Ok fs'
               /\ content fs' (marker_path "pkg-1.0") = Some (marker_text "1.0")).
Proof.
  apply (any_removal_error_is_tolerated "1.0" "pkg-1.0" linked_snapshot EACCES).
  - vm_compute. reflexivity.
  - vm_compute. set_solver.
Defined.

(** C5 as stated fails: a removal that is denied, the file being there,
    does not reach the caller; the hook goes on, ends without an error
    and has rewritten the file in place, so that the marker of the source
    tree, which shares the inode, is rewritten too. *)
Lemma denied_removal_is_swallowed :
  os_remove linked_snapshot (marker_path "pkg-1.0") = OsError EACCES
  /\ after (make_release_tree "1.0" "pkg-1.0" linked_snapshot)
        (fun fs' => (content fs' "pkg-1.0/version", content fs' "version"))
     = Some (Some (marker_text "1.0"), Some (marker_text "1.0")).
Proof. split; vm_compute; reflexivity. Qed.

(** ** Writing the marker and reading it back *)

Lemma occurs_app c a b : occurs c (a +:+ b) = occurs c a || occurs c b.
Proof.
  induction a as [|x a IH]; simpl; [done |].
  rewrite IH. by rewrite orb_assoc.
Qed.

Lemma translate_no_cr s : occurs Py.CR s = false -> Py.translate false s = s.
Proof.
  induction s as [|c s IH]; simpl; [done |].
  intros H. apply orb_false_elim in H as [Hc Hs]. rewrite Hc.
  destruct (Ascii.eqb_spec c Py.LF) as [-> | _]; by rewrite IH.
Qed.

Lemma lines_app_nl a b :
  occurs Py.LF a = false -> Py.lines (a +:+ nl +:+ b) = (a +:+ nl) :: Py.lines b.
Proof.
  induction a as [|c a IH]; [done |].
  intros H. simpl in H. apply orb_false_elim in H as [Hc Ha].
  change (String c a +:+ nl +:+ b) with (String c (a +:+ nl +:+ b)).
  cbn [Py.lines]. by rewrite Hc, (IH Ha).
Qed.

Lemma lines_one a : occurs Py.LF a = false -> Py.lines (a +:+ nl) = [a +:+ nl].
Proof.
  induction a as [|c a IH]; [done |].
  intros H. simpl in H. apply orb_false_elim in H as [Hc Ha].
  change (String c a +:+ nl) with (String c (a +:+ nl)).
  cbn [Py.lines]. by rewrite Hc, (IH Ha).
Qed.

Lemma lstrip_length p s : String.length (Py.lstrip p s) <= String.length s.
Proof. induction s as [|c s IH]; simpl; [lia |]. destruct (p c); simpl; lia. Qed.

Lemma rstrip_length p s : String.length (Py.rstrip p s) <= String.length s.
Proof.
  induction s as [|c s IH]; simpl; [lia |].
  destruct (Py.rstrip p s); [destruct (p c) |]; simpl in *; lia.
Qed.

Lemma rstrip_snoc p s c :
  p c = true -> Py.rstrip p (s +:+ String c "") = Py.rstrip p s.
Proof.
  intros Hc. induction s as [|x s IH]; simpl; [by rewrite Hc |]. by rewrite IH.
Qed.

(** A string without white space at either end begins, when it is not
    empty, with another character than white space, and is left alone by
    [rstrip]. *)
Lemma strip_fixpoint p s :
  Py.strip p s = s -> Py.lstrip p s = s /\ Py.rstrip p s = s.
Proof.
  unfold Py.strip. intros H.
  assert (Hl : Py.lstrip p s = s).
  { destruct s as [|c s]; [done |]. simpl in *. destruct (p c); [| done].
    pose proof (rstrip_length p (Py.lstrip p s)).
    pose proof (lstrip_length p s). rewrite H in *. simpl in *. lia. }
  split; [done |]. by rewrite Hl in H.
Qed.

Lemma strip_line p v :
  p Py.LF = true -> Py.strip p v = v -> Py.strip p (v +:+ nl) = v.
Proof.
  intros Hlf H. apply strip_fixpoint in H as [Hl Hr]. unfold Py.strip.
  destruct v as [|c v]; [simpl; by rewrite Hlf |].
  simpl in Hl. simpl Py.lstrip. destruct (p c).
  - pose proof (lstrip_length p v). rewrite Hl in *. simpl in *. lia.
  - change (String c (v +:+ nl)) with (String c v +:+ nl).
    unfold nl. by rewrite rstrip_snoc.
Qed.

Lemma first_version_of_marker_text v :
  one_line v = true -> Py.strip Py.isspace v = v -> Py.startswith v "#" = false ->
  first_version (Py.lines (Py.universal_newlines (marker_text v))) = Ok v.
Proof.
  unfold one_line. intros Hline Hstrip Hhash.
  apply andb_prop in Hline as [Hlf Hcr].
  apply negb_true_iff in Hlf. apply negb_true_iff in Hcr.
  unfold Py.universal_newlines. rewrite translate_no_cr.
  2:{ unfold marker_text, generated_comment.
      rewrite !occurs_app, Hcr. reflexivity. }
  unfold marker_text, generated_comment.
  rewrite append_assoc, lines_app_nl by reflexivity.
  rewrite lines_one by done.
  simpl first_version.
  replace (Py.startswith (Py.strip Py.isspace
             ("# This file has been generated by setup.py." +:+ nl)) "#")
    with true by (vm_compute; reflexivity).
  rewrite strip_line by (done || reflexivity). by rewrite Hhash.
Qed.

(** C10, as the code has it.  For a version without a line break (LF or
    CR), without white space at its ends and not beginning with [#],
    reading the marker that the hook wrote gives the version back. *)
Theorem marker_round_trip v base_dir fs fs' :
  one_line v = true ->
  Py.strip Py.isspace v = v ->
  Py.startswith v "#" = false ->
  make_release_tree v base_dir fs = Ok fs' ->
  (exists text, open_read fs' (marker_path base_dir) = OsOk text
                /\ first_version (Py.lines text) = Ok v)
  /\ (base_dir = "" -> read_saved_version fs' = Ok v).
Proof.
  intros Hline Hstrip Hhash Hrun.
  apply make_release_tree_content in Hrun.
  pose proof (first_version_of_marker_text v Hline Hstrip Hhash) as Hback.
  split.
  - exists (Py.universal_newlines (marker_text v)).
    unfold open_read. by rewrite Hrun.
  - intros ->. unfold read_saved_version, open_read.
    change (marker_path "") with SAVED_VERSION_FILE in Hrun. by rewrite Hrun.
Qed.

Lemma marker_round_trip_witness :
  exists fs', make_release_tree "1.0.dev3+g1a2b3c4.dirty" "" dynamic_fs = Ok fs'
              /\ read_saved_version fs' = Ok "1.0.dev3+g1a2b3c4.dirty".
Proof.
  destruct (make_release_tree "1.0.dev3+g1a2b3c4.dirty" "" dynamic_fs)
    as [fs'|e] eqn:Hrun; [| by vm_compute in Hrun].
  exists fs'. split; [reflexivity |].
  apply (marker_round_trip "1.0.dev3+g1a2b3c4.dirty" "" dynamic_fs fs');
    [vm_compute; reflexivity .. | exact Hrun | reflexivity].
Defined.

(** C10 as stated fails: the version resolved in a repository whose tag
    begins with a no-break space is not empty, has no line break, is not
    made of white space only and does not begin with [#]; the marker
    written for it reads back without the no-break space. *)
Lemma leading_space_is_lost_on_read_back :
  let v := nbsp +:+ "1.0" in
  fst (run (resolve_version dynamic_fs nbsp_tag_repo)) = Ok v
  /\ (v <> "" /\ one_line v = true /\ Py.strip Py.isspace v <> ""
      /\ Py.startswith v "#" = false)
  /\ after (make_release_tree v "" dynamic_fs) read_saved_version
     = Some (Ok "1.0")
  /\ after (make_release_tree v "" dynamic_fs) read_saved_version
     <> Some (Ok v).
Proof.
  repeat split; try (vm_compute; reflexivity); vm_compute; discriminate.
Qed.

(** ** What [get_version_from_git] can return *)

(** A version comes out of [get_version_from_git] only past the
    top-level check, from a describe that succeeded and whose output has
    the three fields. *)
Lemma get_version_from_git_inv w v :
  fst (run (get_version_from_git w)) = Ok (Some v) ->
  toplevel_passes w
  /\ exists p R dev C,
       describe_succeeds w p
       /\ Py.rsplit "-" 2 (description_of (stdout p)) = [R; dev; C]
       /\ fst (version_of_description w (stdout p) []) = Ok (Some v).
Proof.
  unfold run, get_version_from_git, bind at 1, try_Popen.
  destruct (spawn w git_toplevel) as [p0|e0] eqn:Htop; [| done].
  destruct (Z.eqb_spec (returncode p0) 0) as [Hrc0 | Hrc0]; simpl; [| done].
  unfold bind at 1, lift.
  destruct (samefile w _ _) as [[|]|e] eqn:Hsame; simpl; try done.
  assert (Hgate : toplevel_passes w) by (by exists p0).
  intros Hv. split; [done |].
  assert (Hfrom : forall p log,
             describe_succeeds w p ->
             fst (version_of_description w (stdout p) log) = Ok (Some v) ->
             exists p R dev C,
               describe_succeeds w p
               /\ Py.rsplit "-" 2 (description_of (stdout p)) = [R; dev; C]
               /\ fst (version_of_description w (stdout p) []) = Ok (Some v)).
  { intros p log Hp Hout.
    rewrite (logging_version_of_description w (stdout p)) in Hout. simpl in Hout.
    destruct (Py.rsplit "-" 2 (description_of (stdout p)))
      as [|R [|dev [|C [|? ?]]]] eqn:Hfields;
      try (unfold version_of_description in Hout; by rewrite Hfields in Hout).
    by exists p, R, dev, C. }
  revert Hv. unfold bind, describe_loop, bind, try_Popen, ret.
  destruct (spawn w (git_describe first_parent)) as [p1|e1] eqn:H1; [| done].
  destruct (Z.eqb_spec (returncode p1) 0) as [Hrc1 | Hrc1].
  - apply Hfrom. by left.
  - destruct (spawn w (git_describe [])) as [p2|e2] eqn:H2; [| done].
    destruct (Z.eqb_spec (returncode p2) 0) as [Hrc2 | Hrc2]; [| done].
    apply Hfrom. right. split; [by exists p1 | done].
Qed.

Lemma plus_not_in_sentinel v : occurs "+" v = true -> v <> use_git.
Proof. intros H ->. by vm_compute in H. Qed.

Ltac has_plus H :=
  exfalso; apply plus_not_in_sentinel in H; [done |];
  repeat (rewrite ?occurs_app; simpl); by rewrite ?orb_true_r.

(** The sentinel comes out of [get_version_from_git] only for a release
    field that is the sentinel, with distance ["0"] and no label. *)
Lemma sentinel_from_git w out R dev C :
  Py.rsplit "-" 2 (description_of out) = [R; dev; C] ->
  fst (version_of_description w out []) = Ok (Some use_git) ->
  R = use_git /\ dev = "0"
  /\ diff_exit w <> None /\ diff_exit w <> Some 1%Z.
Proof.
  intros Hfields. rewrite (version_of_description_fields _ _ _ _ _ _ Hfields).
  simpl fst. intros [= Hv].
  destruct (String.eqb_spec dev "0") as [-> | Hdev]; simpl in Hv.
  - destruct (diff_exit w) as [[|[q|q|]|q]|]; simpl in Hv;
      try (has_plus Hv);
      rewrite append_nil_r in Hv; by repeat split.
  - destruct (diff_exit w) as [[|[q|q|]|q]|]; simpl in Hv; has_plus Hv.
Qed.

(** C8, as the code has it.  After the hook has run with the version
    resolved from the dynamic sentinel, the marker of the snapshot is the
    generated comment followed by that version.  The version is the
    sentinel only when the release field of the describe output is the
    sentinel itself, with distance 0 and no label.  Running the hook once
    more succeeds and leaves the same marker. *)
Theorem sdist_pins_the_resolved_version fs w base_dir v fs' :
  read_saved_version fs = Ok use_git ->
  fst (run (resolve_version fs w)) = Ok v ->
  make_release_tree v base_dir fs = Ok fs' ->
  content fs' (marker_path base_dir) = Some (marker_text v)
  /\ (v = use_git ->
      exists p C,
        describe_succeeds w p
        /\ Py.rsplit "-" 2 (description_of (stdout p)) = [use_git; "0"; C]
        /\ diff_exit w <> None /\ diff_exit w <> Some 1%Z)
  /\ (exists fs'',
        make_release_tree v base_dir fs' = Ok fs''
        /\ content fs'' (marker_path base_dir) = content fs' (marker_path base_dir)).
Proof.
  intros Hread Hv Hrun. split; [| split].
  - by apply make_release_tree_content in Hrun.
  - intros ->. rewrite (resolve_version_dynamic _ _ Hread) in Hv.
    destruct (run (get_version_from_git w)) as [[[g|]|e] l] eqn:Hgit;
      [| done | done].
    assert (g = use_git) as ->.
    { destruct g as [|c g]; [done |]. simpl in Hv. congruence. }
    destruct (get_version_from_git_inv w use_git) as (_ & p & R & dev & C & Hp & Hf & Hout).
    { by rewrite Hgit. }
    destruct (sentinel_from_git _ _ _ _ _ Hf Hout) as (-> & -> & Hd).
    by exists p, C.
  - pose proof (make_release_tree_no_write _ _ _ _ Hrun) as [Hw Heq].
    rewrite <- Heq in Hw.
    destruct (make_release_tree_allowed v base_dir fs' Hw) as [fs'' Hrun'].
    exists fs''. split; [done |].
    apply make_release_tree_content in Hrun, Hrun'. congruence.
Qed.

Lemma sdist_pins_the_resolved_version_witness :
  exists fs',
    make_release_tree "1.0.dev3+g1a2b3c4" "pkg-1.0"
      (mkfs [("version", "__use_git__" +:+ nl);
             ("pkg-1.0/version", "__use_git__" +:+ nl)]) = Ok fs'
    /\ content fs' (marker_path "pkg-1.0") = Some (marker_text "1.0.dev3+g1a2b3c4").
Proof.
  destruct (make_release_tree "1.0.dev3+g1a2b3c4" "pkg-1.0"
              (mkfs [("version", "__use_git__" +:+ nl);
                     ("pkg-1.0/version", "__use_git__" +:+ nl)]))
    as [fs'|e] eqn:Hrun; [| by vm_compute in Hrun].
  exists fs'. split; [reflexivity |].
  apply (sdist_pins_the_resolved_version
           (mkfs [("version", "__use_git__" +:+ nl);
                  ("pkg-1.0/version", "__use_git__" +:+ nl)])
           (repo "/src/pkg" "v1.0-3-g1a2b3c4" 0) "pkg-1.0" _ fs');
    [vm_compute; reflexivity | vm_compute; reflexivity | exact Hrun].
Defined.

(** C8 as stated fails: in a repository whose nearest tag is named like
    the sentinel, the resolved version is the sentinel, the marker that
    the hook writes holds it and reads back as the sentinel. *)
Lemma sentinel_tag_is_pinned_as_sentinel :
  read_saved_version dynamic_fs = Ok use_git
  /\ fst (run (resolve_version dynamic_fs sentinel_tag_repo)) = Ok use_git
  /\ after (make_release_tree use_git "" dynamic_fs)
        (fun fs' => (content fs' (marker_path ""), read_saved_version fs'))
     = Some (Some (marker_text use_git), Ok use_git).
Proof. repeat split; vm_compute; reflexivity. Qed.

(** * Further properties of the script *)

(** ** Parsing the output of [git describe] *)

Lemma rsplit_once_none sep s :
  occurs sep s = false -> Py.rsplit_once sep s = None.
Proof.
  induction s as [|c s IH]; simpl; [done |].
  intros H. apply orb_false_elim in H as [Hc Hs]. by rewrite (IH Hs), Hc.
Qed.

Lemma rsplit_once_last sep a b :
  occurs sep b = false ->
  Py.rsplit_once sep (a +:+ String sep b) = Some (a, b).
Proof.
  intros Hb. induction a as [|c a IH]; simpl.
  - by rewrite (rsplit_once_none _ _ Hb), Ascii.eqb_refl.
  - by rewrite IH.
Qed.

Lemma rsplit_two sep R dev C :
  occurs sep dev = false -> occurs sep C = false ->
  Py.rsplit sep 2 (R +:+ String sep (dev +:+ String sep C)) = [R; dev; C].
Proof.
  intros Hdev HC.
  change (String sep (dev +:+ String sep C)) with (String sep dev +:+ String sep C).
  rewrite <- append_assoc. simpl.
  rewrite (rsplit_once_last _ _ _ HC), (rsplit_once_last _ _ _ Hdev). reflexivity.
Qed.

Lemma lstrip_app_stop p s c t :
  p c = false -> Py.lstrip p (s +:+ String c t) = Py.lstrip p s +:+ String c t.
Proof.
  intros Hc. induction s as [|x s IH]; simpl; [by rewrite Hc |].
  by destruct (p x).
Qed.

Lemma rstrip_keep p s c :
  p c = false -> Py.rstrip p (s +:+ String c "") = s +:+ String c "".
Proof.
  intros Hc. induction s as [|x s IH]; simpl; [by rewrite Hc |].
  rewrite IH. by destruct s.
Qed.

Lemma rstrip_app_keep p a b :
  b <> "" -> Py.rstrip p b = b -> Py.rstrip p (a +:+ b) = a +:+ b.
Proof.
  intros Hne Hb. induction a as [|x a IH]; simpl; [done |].
  rewrite IH. destruct a; [by destruct b | done].
Qed.

Lemma rstrip_absent c s :
  occurs c s = false -> Py.rstrip (Py.is_char c) s = s.
Proof.
  induction s as [|x s IH]; simpl; [done |].
  intros H. apply orb_false_elim in H as [Hx Hs]. rewrite (IH Hs).
  unfold Py.is_char. rewrite Ascii.eqb_sym, Hx. by destruct s.
Qed.

Lemma description_of_line (s : string) :
  description_of (s +:+ nl)
  = Py.rstrip (Py.is_char Py.LF) (Py.lstrip (Py.is_char "v") s).
Proof.
  unfold description_of, Py.strip, nl.
  rewrite lstrip_app_stop by reflexivity.
  rewrite rstrip_keep by reflexivity.
  by rewrite rstrip_snoc.
Qed.

Lemma lstrip_not_started p R t c :
  p c = false ->
  match R with String x _ => p x = false | "" => True end ->
  Py.lstrip p (R +:+ String c t) = R +:+ String c t.
Proof.
  intros Hc HR. destruct R as [|x R]; simpl; [by rewrite Hc |]. by rewrite HR.
Qed.

(** X1.  The output [v<R>-<dev>-<C>] of [git describe --long] is split
    into the fields [R], [dev] and [C] whatever the dashes in [R], as
    long as [R] does not begin with a [v] of its own, [dev] and [C] have
    no dash and [C] is not empty and has no newline. *)
Theorem describe_output_is_parsed R dev C :
  Py.startswith R "v" = false ->
  occurs "-" dev = false ->
  occurs "-" C = false ->
  occurs Py.LF C = false ->
  C <> "" ->
  Py.rsplit "-" 2 (description_of (describe_output R dev C)) = [R; dev; C].
Proof.
  intros HR Hdev HC Hlf Hne. unfold describe_output.
  replace ("v" +:+ R +:+ "-" +:+ dev +:+ "-" +:+ C +:+ nl)
    with (("v" +:+ R +:+ "-" +:+ dev +:+ "-" +:+ C) +:+ nl)
    by (by rewrite !append_assoc).
  rewrite description_of_line.
  change ("v" +:+ R +:+ "-" +:+ dev +:+ "-" +:+ C)
    with (String "v" (R +:+ String "-" (dev +:+ String "-" C))).
  cbn [Py.lstrip]. change (Py.is_char "v" "v") with true. cbv iota.
  rewrite lstrip_not_started; [| reflexivity |].
  2:{ destruct R as [|x R]; [done |]. simpl in HR.
      unfold Py.is_char. by rewrite Ascii.eqb_sym. }
  replace (R +:+ String "-" (dev +:+ String "-" C))
    with ((R +:+ String "-" (dev +:+ "-")) +:+ C).
  2:{ rewrite append_assoc. simpl. by rewrite append_assoc. }
  rewrite rstrip_app_keep by (done || by apply rstrip_absent).
  rewrite append_assoc. simpl. rewrite append_assoc. simpl.
  by apply rsplit_two.
Qed.

Lemma decimal_no_dash n : occurs "-" (decimal n) = false.
Proof.
  unfold decimal. generalize (Nat.to_uint n). intros d.
  induction d; simpl; auto.
Qed.

Lemma describe_output_is_parsed_witness :
  Py.rsplit "-" 2 (description_of (describe_output "1.0-rc1" (decimal 12) "g1a2b3c4"))
  = ["1.0-rc1"; decimal 12; "g1a2b3c4"].
Proof.
  apply describe_output_is_parsed;
    [reflexivity | apply decimal_no_dash | reflexivity | reflexivity | discriminate].
Defined.

(** X2.  On an output that ends with a newline, the description is the
    output without that newline and any newline before it, and without
    every [v] it begins with, not only the first, be it part of the tag's
    name; a [v] at the end of the line stays. *)
Theorem description_drops_every_leading_v (s : string) :
  description_of (s +:+ nl)
  = Py.rstrip (Py.is_char Py.LF) (Py.lstrip (Py.is_char "v") s)
  /\ description_of ("vv2.0-0-gabcdev" +:+ nl) = "2.0-0-gabcdev"
  /\ description_of ("version-2-0-g1a2b3c4" +:+ nl) = "ersion-2-0-g1a2b3c4".
Proof. split; [apply description_of_line | split; reflexivity]. Qed.

(** ** Descriptions that do not parse *)

Lemma rsplit_once_count sep s a b :
  Py.rsplit_once sep s = Some (a, b) -> count_char sep a < count_char sep s.
Proof.
  revert a b. induction s as [|c s IH]; intros a b; simpl; [done |].
  destruct (Py.rsplit_once sep s) as [[a' b']|].
  - intros [= <- <-]. simpl. specialize (IH a' b' eq_refl). lia.
  - destruct (Ascii.eqb c sep); [| done]. intros [= <- <-]. simpl. lia.
Qed.

Lemma rsplit_once_absent sep s :
  count_char sep s = 0 -> Py.rsplit_once sep s = None.
Proof.
  induction s as [|c s IH]; simpl; [done |].
  destruct (Ascii.eqb c sep); [done |]. intros H. by rewrite IH.
Qed.

Lemma rsplit_few sep s :
  count_char sep s < 2 -> length (Py.rsplit sep 2 s) < 3.
Proof.
  intros Hs. simpl. destruct (Py.rsplit_once sep s) as [[a b]|] eqn:Hsplit.
  - apply rsplit_once_count in Hsplit.
    rewrite rsplit_once_absent by lia. simpl. lia.
  - simpl. lia.
Qed.

Lemma version_of_description_unparsed w out log :
  length (Py.rsplit "-" 2 (description_of out)) <> 3 ->
  version_of_description w out log = (Raise ValueError, log).
Proof.
  unfold version_of_description.
  by destruct (Py.rsplit "-" 2 (description_of out)) as [|? [|? [|? [|? ?]]]].
Qed.

(** X3.  When the describe succeeds with an output that has fewer than
    two dashes, [get_version_from_git] raises [ValueError] without
    running the dirty check, and the resolution from the dynamic sentinel
    raises it too: the version is not ["unknown"]. *)
Theorem unparsable_description_raises w p :
  toplevel_passes w ->
  describe_succeeds w p ->
  count_char "-" (description_of (stdout p)) < 2 ->
  (exists tried,
     run (get_version_from_git w) = (Raise ValueError, git_toplevel :: tried)
     /\ (tried = [git_describe first_parent]
         \/ tried = [git_describe first_parent; git_describe []]))
  /\ (forall fs, read_saved_version fs = Ok use_git ->
        fst (run (resolve_version fs w)) = Raise ValueError).
Proof.
  intros Htop Hdesc Hfew.
  assert (Hlen : length (Py.rsplit "-" 2 (description_of (stdout p))) <> 3).
  { apply rsplit_few in Hfew. lia. }
  assert (Hrun : exists tried,
             run (get_version_from_git w) = (Raise ValueError, git_toplevel :: tried)
             /\ (tried = [git_describe first_parent]
                 \/ tried = [git_describe first_parent; git_describe []])).
  { rewrite (get_version_gate_open _ Htop). unfold bind.
    destruct Hdesc as [Hfirst | [Hfirst Hretry]].
    - rewrite (describe_loop_first _ _ _ Hfirst).
      rewrite (version_of_description_unparsed _ _ _ Hlen). eexists. split; eauto.
    - rewrite (describe_loop_retry _ _ _ Hfirst Hretry).
      rewrite (version_of_description_unparsed _ _ _ Hlen). eexists. split; eauto. }
  split; [done |].
  intros fs Hread. destruct Hrun as (tried & Hrun & _).
  by rewrite (resolve_version_dynamic _ _ Hread), Hrun.
Qed.

Lemma repo_passes root described code :
  occurs Py.LF root = false -> toplevel_passes (repo root described code).
Proof.
  intros Hroot. exists {| returncode := 0; stdout := root +:+ nl |}.
  split; [reflexivity |]. split; [reflexivity |].
  cbn [repo samefile stdout distr_root]. unfold nl.
  rewrite rstrip_snoc by reflexivity. rewrite rstrip_absent by done.
  by rewrite bool_decide_eq_true_2.
Qed.

Lemma repo_describes root described code :
  describe_succeeds (repo root described code)
    {| returncode := 0; stdout := described +:+ nl |}.
Proof. left. split; reflexivity. Qed.

Lemma unparsable_description_raises_witness :
  fst (run (resolve_version dynamic_fs bare_id_repo)) = Raise ValueError.
Proof.
  destruct (unparsable_description_raises bare_id_repo
              {| returncode := 0; stdout := "1a2b3c4" +:+ nl |}) as [_ H].
  - by apply repo_passes.
  - apply repo_describes.
  - vm_compute. lia.
  - apply H. vm_compute. reflexivity.
Defined.

(** ** What the dynamic resolution can give *)

(** X4.  A version resolved from the dynamic sentinel is never empty: it
    is ["unknown"], or it is built from the three fields of the output of
    a describe that succeeded past the top-level check. *)
Theorem dynamic_version_is_unknown_or_assembled fs w v :
  read_saved_version fs = Ok use_git ->
  fst (run (resolve_version fs w)) = Ok v ->
  v <> ""
  /\ (v = "unknown"
      \/ (toplevel_passes w
          /\ exists p R dev C,
               describe_succeeds w p
               /\ Py.rsplit "-" 2 (description_of (stdout p)) = [R; dev; C]
               /\ let ahead := negb (String.eqb dev "0") in
                  let labels :=
                    (if ahead then [C] else [])
                    ++ match diff_exit w with
                       | None => ["confused"]
                       | Some 1%Z => ["dirty"]
                       | Some _ => []
                       end in
                  v = R +:+ (if ahead then ".dev" +:+ dev else "")
                        +:+ match labels with
                            | [] => ""
                            | _ => "+" +:+ Py.join "." labels
                            end)).
Proof.
  intros Hread Hv. rewrite (resolve_version_dynamic _ _ Hread) in Hv.
  destruct (run (get_version_from_git w)) as [[[g|]|e] l] eqn:Hgit.
  - destruct g as [|c g]; simpl in Hv.
    + injection Hv as <-. split; [done | by left].
    + injection Hv as <-. split; [done | right].
      destruct (get_version_from_git_inv w (String c g))
        as (Htop & p & R & dev & C & Hp & Hf & Hout); [by rewrite Hgit |].
      split; [done |]. exists p, R, dev, C. repeat split; try done.
      rewrite (version_of_description_fields _ _ _ _ _ _ Hf) in Hout.
      simpl in Hout. by injection Hout as <-.
  - injection Hv as <-. split; [done | by left].
  - done.
Qed.

Lemma dynamic_version_is_unknown_or_assembled_witness :
  "1.0.dev3+g1a2b3c4.dirty" <> "".
Proof.
  apply (dynamic_version_is_unknown_or_assembled dynamic_fs
           (repo "/src/pkg" "v1.0-3-g1a2b3c4" 1) "1.0.dev3+g1a2b3c4.dirty");
    vm_compute; reflexivity.
Defined.

(** ** The commands that are spawned *)

Lemma version_of_description_log w out log :
  snd (version_of_description w out log) = log
  \/ snd (version_of_description w out log) = log ++ [git_diff].
Proof.
  destruct (Py.rsplit "-" 2 (description_of out)) as [|R [|dev [|C [|? ?]]]] eqn:Hf;
    try (left; rewrite version_of_description_unparsed; [done | by rewrite Hf]).
  right. by rewrite (version_of_description_fields _ _ _ _ _ _ Hf).
Qed.

(** X5.  [get_version_from_git] spawns the top-level query first, then at
    most the two describes, the plain one only after the first-parent
    one, and the dirty check only last: these five sequences of commands
    are the only ones. *)
Theorem spawned_commands_are_in_order w :
  let log := snd (run (get_version_from_git w)) in
  log = [git_toplevel]
  \/ log = [git_toplevel; git_describe first_parent]
  \/ log = [git_toplevel; git_describe first_parent; git_describe []]
  \/ log = [git_toplevel; git_describe first_parent; git_diff]
  \/ log = [git_toplevel; git_describe first_parent; git_describe []; git_diff].
Proof.
  intros log.
  assert (Hlog : log = snd (run (get_version_from_git w))) by done.
  clearbody log. revert Hlog.
  unfold run, get_version_from_git, bind at 1, try_Popen.
  destruct (spawn w git_toplevel) as [p0|e0]; [| intros ->; by left].
  destruct (returncode p0 =? 0)%Z; simpl; [| intros ->; by left].
  unfold bind at 1, lift.
  destruct (samefile w _ _) as [[|]|e]; simpl; [| intros ->; by left ..].
  unfold bind, describe_loop, bind, try_Popen, ret.
  destruct (spawn w (git_describe first_parent)) as [p1|e1];
    [| intros ->; by right; left].
  destruct (returncode p1 =? 0)%Z.
  - destruct (version_of_description_log w (stdout p1)
                ([git_toplevel] ++ [git_describe first_parent])) as [-> | ->];
      intros ->; simpl; auto.
  - destruct (spawn w (git_describe [])) as [p2|e2];
      [| intros ->; by right; right; left].
    destruct (returncode p2 =? 0)%Z; [| intros ->; by right; right; left].
    destruct (version_of_description_log w (stdout p2)
                (([git_toplevel] ++ [git_describe first_parent]) ++ [git_describe []]))
      as [-> | ->]; intros ->; simpl; auto 6.
Qed.

(** ** The value that the reader returns *)

Lemma rstrip_idem p s : Py.rstrip p (Py.rstrip p s) = Py.rstrip p s.
Proof.
  induction s as [|c s IH]; simpl; [done |].
  destruct (Py.rstrip p s) as [|x r] eqn:Hr.
  - destruct (p c) eqn:Hc; simpl; [done | by rewrite Hc].
  - change (Py.rstrip p (String c (String x r)))
      with (match Py.rstrip p (String x r) with
            | "" => if p c then "" else String c ""
            | r' => String c r'
            end).
    by rewrite IH.
Qed.

Lemma lstrip_idem p s : Py.lstrip p (Py.lstrip p s) = Py.lstrip p s.
Proof.
  induction s as [|c s IH]; simpl; [done |].
  destruct (p c) eqn:Hc; [done |]. simpl. by rewrite Hc.
Qed.

Lemma lstrip_rstrip p s :
  Py.lstrip p s = s -> Py.lstrip p (Py.rstrip p s) = Py.rstrip p s.
Proof.
  destruct s as [|c s]; [done |]. simpl. destruct (p c) eqn:Hc.
  - intros H. pose proof (lstrip_length p s) as Hlen.
    rewrite H in Hlen. simpl in Hlen. lia.
  - intros _. destruct (Py.rstrip p s); simpl; by rewrite Hc.
Qed.

Lemma strip_idem p s : Py.strip p (Py.strip p s) = Py.strip p s.
Proof.
  unfold Py.strip.
  rewrite (lstrip_rstrip p (Py.lstrip p s)) by apply lstrip_idem.
  apply rstrip_idem.
Qed.

Lemma occurs_lstrip c p s : occurs c s = false -> occurs c (Py.lstrip p s) = false.
Proof.
  induction s as [|x s IH]; simpl; [done |].
  intros H. destruct (p x); [| done].
  apply orb_false_elim in H as [_ Hs]. by apply IH.
Qed.

Lemma occurs_rstrip c p s : occurs c s = false -> occurs c (Py.rstrip p s) = false.
Proof.
  induction s as [|x s IH]; simpl; [done |].
  intros H. apply orb_false_elim in H as [Hx Hs]. specialize (IH Hs).
  destruct (Py.rstrip p s) as [|y r].
  - destruct (p x); simpl; [done | by rewrite Hx].
  - simpl in *. by rewrite Hx, IH.
Qed.

Lemma occurs_strip c p s : occurs c s = false -> occurs c (Py.strip p s) = false.
Proof. intros H. by apply occurs_rstrip, occurs_lstrip. Qed.

Lemma translate_has_no_cr b s : occurs Py.CR (Py.translate b s) = false.
Proof.
  revert b. induction s as [|c s IH]; intros b; simpl; [done |].
  destruct (Ascii.eqb_spec c Py.CR) as [-> | Hcr]; simpl; [by rewrite IH |].
  destruct (Ascii.eqb c Py.LF); [destruct b |]; simpl; rewrite ?IH; try done.
  by apply Ascii.eqb_neq in Hcr as ->.
Qed.

(** A line is a text without LF, followed or not by LF, and has no
    character that the whole text has not. *)
Lemma lines_elem s l :
  l ∈ Py.lines s ->
  exists body,
    (l = body \/ l = body +:+ nl)
    /\ occurs Py.LF body = false
    /\ forall c, occurs c s = false -> occurs c body = false.
Proof.
  revert l. induction s as [|x s IH]; intros l; simpl; [by intros ?%elem_of_nil |].
  destruct (Ascii.eqb_spec x Py.LF) as [-> | Hx].
  - intros [-> | Hin]%elem_of_cons.
    + exists "". repeat split; auto.
    + destruct (IH l Hin) as (body & Hl & Hlf & Hsub).
      exists body. repeat split; try done.
      intros c Hc. simpl in Hc. apply orb_false_elim in Hc as [_ Hc]. auto.
  - apply Ascii.eqb_neq in Hx.
    destruct (Py.lines s) as [|l0 ls] eqn:Hlines.
    + intros ->%list_elem_of_singleton. exists (String x "").
      repeat split; [by left | simpl; by rewrite Hx |].
      intros c Hc. simpl in *. apply orb_false_elim in Hc as [-> _]. done.
    + intros [-> | Hin]%elem_of_cons.
      * destruct (IH l0) as (body & Hl & Hlf & Hsub); [by left |].
        exists (String x body). repeat split.
        -- destruct Hl as [-> | ->]; [by left | by right].
        -- simpl. by rewrite Hx, Hlf.
        -- intros c Hc. simpl in *. apply orb_false_elim in Hc as [-> Hc].
           by rewrite (Hsub c Hc).
      * destruct (IH l) as (body & Hl & Hlf & Hsub); [by right |].
        exists body. repeat split; try done.
        intros c Hc. simpl in Hc. apply orb_false_elim in Hc as [_ Hc]. auto.
Qed.

Lemma lstrip_app p s t :
  Py.lstrip p (s +:+ t)
  = match Py.lstrip p s with
    | "" => Py.lstrip p t
    | r => r +:+ t
    end.
Proof.
  induction s as [|x s IH]; simpl; [by destruct (Py.lstrip p t) |].
  destruct (p x); [done |]. reflexivity.
Qed.

Lemma strip_snoc_space p s c :
  p c = true -> Py.strip p (s +:+ String c "") = Py.strip p s.
Proof.
  intros Hc. unfold Py.strip. rewrite lstrip_app.
  destruct (Py.lstrip p s) as [|x r]; simpl Py.lstrip.
  - by rewrite Hc.
  - by rewrite rstrip_snoc.
Qed.

Lemma first_version_ok ls v :
  first_version ls = Ok v ->
  exists l, l ∈ ls /\ v = Py.strip Py.isspace l /\ Py.startswith v "#" = false.
Proof.
  induction ls as [|l ls IH]; simpl; [done |].
  destruct (Py.startswith (Py.strip Py.isspace l) "#") eqn:Hc.
  - intros H. destruct (IH H) as (l' & Hin & Hv & Hs).
    exists l'. split; [by right | done].
  - intros [= <-]. exists l. split; [by left | done].
Qed.

Lemma first_version_normalized text v :
  occurs Py.CR text = false ->
  first_version (Py.lines text) = Ok v ->
  Py.strip Py.isspace v = v /\ one_line v = true /\ Py.startswith v "#" = false.
Proof.
  intros Hcr Hv. apply first_version_ok in Hv as (l & Hin & -> & Hhash).
  apply lines_elem in Hin as (body & Hl & Hlf & Hsub).
  assert (Hstrip : Py.strip Py.isspace l = Py.strip Py.isspace body).
  { destruct Hl as [-> | ->]; [done |]. by apply strip_snoc_space. }
  rewrite Hstrip in *. split; [apply strip_idem |]. split; [| done].
  unfold one_line. by rewrite !occurs_strip by auto.
Qed.

(** X6.  A version that comes out of the reader of the saved version file
    has no white space at either end, no line break, and does not begin
    with [#]; it may be empty. *)
Theorem saved_version_is_normalized fs v :
  read_saved_version fs = Ok v ->
  Py.strip Py.isspace v = v
  /\ occurs Py.LF v = false /\ occurs Py.CR v = false
  /\ Py.startswith v "#" = false.
Proof.
  unfold read_saved_version, open_read.
  destruct (content fs SAVED_VERSION_FILE) as [raw|]; [| done].
  intros Hv. apply first_version_normalized in Hv as (Hs & Hline & Hhash);
    [| apply translate_has_no_cr].
  unfold one_line in Hline. apply andb_prop in Hline as [Hlf Hcr].
  apply negb_true_iff in Hlf. apply negb_true_iff in Hcr. done.
Qed.

Lemma saved_version_is_normalized_witness :
  Py.strip Py.isspace "1.2.0" = "1.2.0"
  /\ occurs Py.LF "1.2.0" = false /\ occurs Py.CR "1.2.0" = false
  /\ Py.startswith "1.2.0" "#" = false.
Proof.
  apply (saved_version_is_normalized
           (mkfs [("version", "  # pinned" +:+ nl +:+ "  1.2.0  " +:+ nl)])).
  vm_compute. reflexivity.
Defined.

(** X7.  Pinning is stable: when the hook writes, in the directory of the
    script itself, the version that was read from the saved version file,
    the file reads back as the same version. *)
Theorem pinning_a_read_version_is_stable fs v fs' :
  read_saved_version fs = Ok v ->
  make_release_tree v "" fs = Ok fs' ->
  read_saved_version fs' = Ok v.
Proof.
  intros Hread Hrun.
  assert (Hnorm : Py.strip Py.isspace v = v /\ one_line v = true
                  /\ Py.startswith v "#" = false).
  { revert Hread. unfold read_saved_version, open_read.
    destruct (content fs SAVED_VERSION_FILE) as [raw|]; [| done].
    intros Hv. by apply first_version_normalized in Hv;
      [| apply translate_has_no_cr]. }
  destruct Hnorm as (Hs & Hline & Hhash).
  apply make_release_tree_content in Hrun.
  change (marker_path "") with SAVED_VERSION_FILE in Hrun.
  unfold read_saved_version, open_read. rewrite Hrun.
  by apply first_version_of_marker_text.
Qed.

Lemma pinning_a_read_version_is_stable_witness :
  after (make_release_tree "1.2.0" ""
           (mkfs [("version", "  1.2.0  " +:+ nl)])) read_saved_version
  = Some (Ok "1.2.0").
Proof.
  destruct (make_release_tree "1.2.0" "" (mkfs [("version", "  1.2.0  " +:+ nl)]))
    as [fs'|e] eqn:Hrun; [| by vm_compute in Hrun].
  simpl. f_equal.
  apply (pinning_a_read_version_is_stable
           (mkfs [("version", "  1.2.0  " +:+ nl)]) "1.2.0" fs');
    [vm_compute; reflexivity | exact Hrun].
Defined.

(** X8.  A snapshot pinned to a version without line break, without white
    space at its ends, not beginning with [#] and other than the
    sentinel resolves to that version in every environment, and no [git]
    command is spawned. *)
Theorem pinned_snapshot_resolves_without_git v fs fs' :
  one_line v = true ->
  Py.strip Py.isspace v = v ->
  Py.startswith v "#" = false ->
  v <> use_git ->
  make_release_tree v "" fs = Ok fs' ->
  forall w, run (resolve_version fs' w) = (Ok v, []).
Proof.
  intros Hline Hs Hhash Hne Hrun w.
  apply resolve_version_literal; [| done].
  apply make_release_tree_content in Hrun.
  change (marker_path "") with SAVED_VERSION_FILE in Hrun.
  unfold read_saved_version, open_read. rewrite Hrun.
  by apply first_version_of_marker_text.
Qed.

Lemma pinned_snapshot_resolves_without_git_witness :
  after (make_release_tree "1.0.dev3+g1a2b3c4" "" dynamic_fs)
    (fun fs' => run (resolve_version fs' nested_checkout))
  = Some (Ok "1.0.dev3+g1a2b3c4", []).
Proof.
  destruct (make_release_tree "1.0.dev3+g1a2b3c4" "" dynamic_fs)
    as [fs'|e] eqn:Hrun; [| by vm_compute in Hrun].
  simpl. f_equal.
  apply (pinned_snapshot_resolves_without_git "1.0.dev3+g1a2b3c4" dynamic_fs fs');
    [vm_compute; reflexivity .. | discriminate | exact Hrun].
Defined.

(** ** What the [sdist] hook leaves alone *)

Lemma fresh_inode_unused fs path i :
  well_formed fs -> names fs !! path = Some i -> i <> fresh (dom (inodes fs)).
Proof.
  intros Hwf Hname ->. apply Hwf in Hname.
  apply elem_of_dom in Hname. by apply is_fresh in Hname.
Qed.

(** X9.  When the marker of the snapshot is not there, or can be removed,
    the hook changes no other file: a file that shared its inode with
    the old marker, such as the marker of the source tree behind a hard
    link, keeps its content. *)
Theorem sdist_leaves_other_files_alone version base_dir fs fs' :
  well_formed fs ->
  names fs !! marker_path base_dir = None \/ marker_path base_dir ∉ no_unlink fs ->
  make_release_tree version base_dir fs = Ok fs' ->
  forall path, path <> marker_path base_dir -> content fs' path = content fs path.
Proof.
  intros Hwf Hfree Hrun path Hpath. revert Hrun.
  unfold make_release_tree. fold (marker_path base_dir).
  unfold os_remove, open_write.
  destruct (names fs !! marker_path base_dir) as [i|] eqn:Hname.
  - destruct Hfree as [? | Hfree]; [done |].
    case_decide; [done |]. case_decide; [done |]. simpl.
    rewrite lookup_delete_eq. intros [= <-].
    unfold content. simpl.
    rewrite lookup_insert_ne, lookup_delete_ne by done.
    destruct (names fs !! path) as [j|] eqn:Hj; [| done]. simpl.
    rewrite lookup_insert_ne; [done |].
    intros Heq. by apply (fresh_inode_unused fs path j Hwf Hj).
  - case_decide; [done |]. rewrite Hname. intros [= <-].
    unfold content. simpl. rewrite lookup_insert_ne by done.
    destruct (names fs !! path) as [j|] eqn:Hj; [| done]. simpl.
    rewrite lookup_insert_ne; [done |].
    intros Heq. by apply (fresh_inode_unused fs path j Hwf Hj).
Qed.

Lemma linked_snapshot_free_well_formed : well_formed linked_snapshot_free.
Proof.
  intros path i. unfold linked_snapshot_free. simpl.
  intros H. apply lookup_insert_Some in H as [[_ <-] | [_ H]].
  - by eexists.
  - apply lookup_singleton_Some in H as [_ <-]. by eexists.
Qed.

Lemma sdist_leaves_other_files_alone_witness :
  after (make_release_tree "1.0" "pkg-1.0" linked_snapshot_free)
    (fun fs' => content fs' "version")
  = Some (content linked_snapshot_free "version").
Proof.
  destruct (make_release_tree "1.0" "pkg-1.0" linked_snapshot_free)
    as [fs'|e] eqn:Hrun; [| by vm_compute in Hrun].
  simpl. f_equal.
  apply (sdist_leaves_other_files_alone "1.0" "pkg-1.0" linked_snapshot_free fs').
  - apply linked_snapshot_free_well_formed.
  - right. vm_compute. set_solver.
  - exact Hrun.
  - discriminate.
Defined.

(** ** When [long_description] raises *)

Lemma lines_blank_split (ls : list string) :
  Forall (fun l => l <> nl) ls
  \/ exists pre rest, ls = pre ++ nl :: rest /\ Forall (fun l => l <> nl) pre.
Proof.
  induction ls as [|l ls IH]; [by left |].
  destruct (String.eqb_spec l nl) as [-> | Hl].
  - right. by exists [], ls.
  - destruct IH as [Hall | (pre & rest & -> & Hpre)].
    + left. by constructor.
    + right. exists (l :: pre), rest. split; [done | by constructor].
Qed.

(** Once a line other than the blank one is kept, the loop ends with that
    line still at the head of the kept lines, if it ends normally. *)
Lemma scan_readme_keeps_head l ls : forall text,
  l <> nl ->
  match scan_readme ls false (l :: text) with
  | Ok kept => exists text', kept = l :: text'
  | Raise _ => True
  end.
Proof.
  induction ls as [|line ls IH]; intros text Hl; simpl; [by eexists |].
  destruct (String.eqb_spec line nl) as [-> | Hline].
  - destruct (last (l :: text)) as [t|] eqn:Hlast; [| done].
    destruct (String.eqb_spec t nl) as [-> | Ht].
    + destruct text as [|x text]; [simpl in Hlast; congruence |].
      simpl. by eexists.
    + apply (IH (text ++ [nl]) Hl).
  - apply (IH (text ++ [line]) Hl).
Qed.

Lemma scan_readme_all_skipped pre :
  Forall (fun l => l <> nl) pre -> scan_readme pre true [] = Ok [].
Proof.
  intros Hpre. rewrite <- (app_nil_r pre). by rewrite scan_readme_skip.
Qed.

Lemma long_description_of_scan fs s :
  open_read fs README_FILE = OsOk s ->
  long_description fs =
    match scan_readme (Py.lines s) true [] with
    | Raise _ => Ok ""
    | Ok text =>
        match last text with
        | None => Raise IndexError
        | Some t => Ok (Py.concat (removelast text ++ [Py.rstrip Py.isspace t]))
        end
    end.
Proof.
  intros Hopen. unfold long_description. rewrite Hopen.
  by destruct (scan_readme (Py.lines s) true []).
Qed.

(** X10.  [long_description] raises exactly when the README can be read
    and has no blank line, or none but its last line; what it raises is
    [IndexError]. *)
Theorem long_description_raises_iff fs e :
  long_description fs = Raise e
  <-> e = IndexError
      /\ exists s pre,
           open_read fs README_FILE = OsOk s
           /\ Forall (fun l => l <> nl) pre
           /\ (Py.lines s = pre \/ Py.lines s = pre ++ [nl]).
Proof.
  split.
  - destruct (open_read fs README_FILE) as [s|err] eqn:Hopen.
    2:{ unfold long_description. by rewrite Hopen. }
    rewrite (long_description_of_scan _ _ Hopen).
    destruct (lines_blank_split (Py.lines s)) as [Hall | (pre & rest & Hls & Hpre)].
    + rewrite (scan_readme_all_skipped _ Hall). simpl. intros [= <-].
      split; [done |]. exists s, (Py.lines s). auto.
    + rewrite Hls, (scan_readme_skip _ _ Hpre). simpl.
      destruct rest as [|l rest].
      * simpl. intros [= <-]. split; [done |]. exists s, pre. auto.
      * simpl. destruct (String.eqb_spec l nl) as [-> | Hl]; [done |].
        pose proof (scan_readme_keeps_head l rest [] Hl) as Hhead.
        destruct (scan_readme rest false [l]) as [kept|]; [| done].
        destruct Hhead as [text' ->].
        destruct (last (l :: text')) eqn:Hlast; [done |].
        by apply last_None in Hlast.
  - intros (-> & s & pre & Hopen & Hpre & Hls).
    rewrite (long_description_of_scan _ _ Hopen).
    destruct Hls as [-> | ->].
    + by rewrite (scan_readme_all_skipped _ Hpre).
    + by rewrite (scan_readme_skip _ _ Hpre).
Qed.

(** X11.  When the first blank line of the README is followed at once by
    another blank line, [long_description] is empty, whatever comes
    after. *)
Theorem two_blank_lines_empty_the_description fs s pre rest :
  open_read fs README_FILE = OsOk s ->
  Py.lines s = pre ++ nl :: nl :: rest ->
  Forall (fun l => l <> nl) pre ->
  long_description fs = Ok "".
Proof.
  intros Hopen Hls Hpre.
  rewrite (long_description_of_scan _ _ Hopen), Hls.
  by rewrite (scan_readme_skip _ _ Hpre).
Qed.

Lemma two_blank_lines_empty_the_description_witness :
  long_description
    (mkfs [("README", "Title" +:+ nl +:+ nl +:+ nl +:+ "Summary" +:+ nl)])
  = Ok "".
Proof.
  apply (two_blank_lines_empty_the_description _
           ("Title" +:+ nl +:+ nl +:+ nl +:+ "Summary" +:+ nl)
           ["Title" +:+ nl] ["Summary" +:+ nl]).
  - vm_compute. reflexivity.
  - vm_compute. reflexivity.
  - repeat constructor. discriminate.
Defined.

Lemma long_description_raises_iff_witness :
  long_description (mkfs [("README", "Title" +:+ nl +:+ "Summary" +:+ nl)])
  = Raise IndexError.
Proof.
  apply long_description_raises_iff. split; [reflexivity |].
  exists ("Title" +:+ nl +:+ "Summary" +:+ nl), ["Title" +:+ nl; "Summary" +:+ nl].
  split; [vm_compute; reflexivity |].
  split; [repeat constructor; discriminate | left; vm_compute; reflexivity].
Defined.

(** ** The [build_ext] hook *)

(** X12.  For a version without line break, the header that the
    [build_ext] hook writes has three lines: the two comment lines and
    the definition of [VERSION] as the version between double quotes. *)
Theorem header_has_three_lines version fs fs' :
  one_line version = true ->
  our_build_ext_run version fs = Ok fs' ->
  exists text,
    open_read fs' "src/version.hh" = OsOk text
    /\ Py.lines text
       = ["// This file has been generated by setup.py." +:+ nl;
          "// It is not included in source distributions." +:+ nl;
          "#define VERSION " +:+ dquote +:+ version +:+ dquote +:+ nl].
Proof.
  unfold one_line. intros Hline Hrun.
  apply andb_prop in Hline as [Hlf Hcr].
  apply negb_true_iff in Hlf. apply negb_true_iff in Hcr.
  unfold our_build_ext_run in Hrun.
  change (path_join_all VERSION_HEADER) with "src/version.hh" in Hrun.
  destruct (open_write fs "src/version.hh" (header_text version)) as [fs1|e] eqn:Hw;
    [| done].
  injection Hrun as <-. apply open_write_content in Hw.
  exists (header_text version). split.
  - unfold open_read. rewrite Hw. f_equal. apply translate_no_cr.
    unfold header_text, define_line. rewrite !occurs_app, Hcr. reflexivity.
  - unfold header_text, define_line.
    rewrite !append_assoc.
    rewrite lines_app_nl by reflexivity.
    rewrite lines_app_nl by reflexivity.
    replace ("#define VERSION " +:+ dquote +:+ version +:+ dquote +:+ nl)
      with (("#define VERSION " +:+ dquote +:+ version +:+ dquote) +:+ nl)
      by (by rewrite !append_assoc).
    rewrite lines_one; [done |].
    rewrite !occurs_app, Hlf. reflexivity.
Qed.

Lemma header_has_three_lines_witness :
  match our_build_ext_run "1.0.dev3+g1a2b3c4" (mkfs []) with
  | Ok fs' =>
      exists text,
        open_read fs' "src/version.hh" = OsOk text
        /\ Py.lines text
           = ["// This file has been generated by setup.py." +:+ nl;
              "// It is not included in source distributions." +:+ nl;
              "#define VERSION " +:+ dquote +:+ "1.0.dev3+g1a2b3c4" +:+ dquote +:+ nl]
  | Raise _ => False
  end.
Proof.
  destruct (our_build_ext_run "1.0.dev3+g1a2b3c4" (mkfs [])) as [fs'|e] eqn:Hrun;
    [| by vm_compute in Hrun].
  apply (header_has_three_lines "1.0.dev3+g1a2b3c4" (mkfs []) fs');
    [vm_compute; reflexivity | exact Hrun].
Defined.
